(** * hssearch: the text-normalisation pipeline and the keyword search of [app.py]

    A shallow embedding of [text_preprocessing] (app.py, lines 67-113), of the
    helpers it calls (lines 37-64), of the row filter of [display_table]
    (lines 672-676) and of the navigation callbacks (lines 249-257, 264-662,
    739-747), followed by the properties of the specification that are
    settled on it and by further properties read off the code.

    Python [str] values are embedded as [string], each character being read as
    the code point of the same number (the Latin-1 range U+0000..U+00FF).
    The libraries the program imports (BeautifulSoup, unidecode, contractions,
    spaCy, word2number, the regular-expression engine behind pandas) are
    collaborators of the program, not part of it: they are the fields of the
    record [Env], and every theorem is stated for an arbitrary [Env]. *)

From Stdlib Require Import Bool Arith ZArith List Ascii String DecimalString.
Import ListNotations.
Local Open Scope string_scope.

(** ** Python string primitives on the Latin-1 range *)

Module PyStr.

Local Open Scope nat_scope.

(** [str.isspace] for one character: TAB..CR, FS..US, SPACE, NEL, NBSP. *)
Definition isspace (c : ascii) : bool :=
  let n := nat_of_ascii c in
  ((9 <=? n) && (n <=? 13)) || ((28 <=? n) && (n <=? 32))
  || (n =? 133) || (n =? 160).

(** The characters with a numeric value: 0-9, the superscripts 1 2 3 and the
    fractions 1/4 1/2 3/4. *)
Definition numeric_char (c : ascii) : bool :=
  let n := nat_of_ascii c in
  ((48 <=? n) && (n <=? 57)) || (n =? 178) || (n =? 179) || (n =? 185)
  || ((188 <=? n) && (n <=? 190)).

Fixpoint forallb_str (p : ascii -> bool) (s : string) : bool :=
  match s with
  | EmptyString => true
  | String c r => p c && forallb_str p r
  end.

(** [s.isnumeric()]: at least one character and all of them numeric. *)
Definition isnumeric (s : string) : bool :=
  match s with
  | EmptyString => false
  | _ => forallb_str numeric_char s
  end.

(** [s.lower()]: A-Z and the capital letters U+00C0..U+00DE (the
    multiplication sign U+00D7 apart) move up by 32. *)
Definition lower_char (c : ascii) : ascii :=
  let n := nat_of_ascii c in
  if ((65 <=? n) && (n <=? 90))
     || ((192 <=? n) && (n <=? 222) && negb (n =? 215))
  then ascii_of_nat (n + 32) else c.

Fixpoint lower (s : string) : string :=
  match s with
  | EmptyString => EmptyString
  | String c r => String (lower_char c) (lower r)
  end.

(** [s.lstrip()], [s.rstrip()] and [s.strip()]. *)
Fixpoint lstrip (s : string) : string :=
  match s with
  | EmptyString => EmptyString
  | String c r => if isspace c then lstrip r else s
  end.

Fixpoint rstrip (s : string) : string :=
  match s with
  | EmptyString => EmptyString
  | String c r =>
      match rstrip r with
      | EmptyString => if isspace c then EmptyString else String c EmptyString
      | r' => String c r'
      end
  end.

Definition strip (s : string) : string := rstrip (lstrip s).

(** [s.split()] without argument: the maximal runs of characters that are
    not white space, in order.  [cur] is the run being read, reversed. *)
Definition rev_string (l : list ascii) : string :=
  string_of_list_ascii (rev l).

Definition flush (cur : list ascii) : list string :=
  match cur with
  | [] => []
  | _ => [rev_string cur]
  end.

Fixpoint split_aux (cur : list ascii) (s : string) : list string :=
  match s with
  | EmptyString => flush cur
  | String c r =>
      if isspace c then (flush cur ++ split_aux [] r)%list
      else split_aux (c :: cur) r
  end.

Definition split (s : string) : list string := split_aux [] s.

(** [sep.join(l)] for a list of strings. *)
Fixpoint join (sep : string) (l : list string) : string :=
  match l with
  | [] => ""
  | [x] => x
  | x :: r => x ++ sep ++ join sep r
  end.

(** [pat in s]: [pat] occurs in [s] as a contiguous substring. *)
Fixpoint contains (pat s : string) : bool :=
  prefix pat s
  || match s with
     | EmptyString => false
     | String _ r => contains pat r
     end.

Definition mem (x : string) (l : list string) : bool :=
  existsb (String.eqb x) l.

End PyStr.

(** ** Values, exceptions and the error monad *)

(** What the list [clean_text] can hold: a [str], or the number that
    [w2n.word_to_num] returns. *)
Inductive pyval : Type :=
| PyStr (s : string)
| PyNum (n : Z).

(** The exceptions that can leave the modelled code.  [ValueError] is raised
    by word2number and carries that library's message; [TypeError] is raised
    by [str.join] and carries the index of the offending item; [ReError] is
    raised when a search pattern does not compile. *)
Inductive exn : Type :=
| ValueError (msg : string)
| TypeError (item : nat)
| ReError (msg : string).

Inductive result (A : Type) : Type :=
| Ok (a : A)
| Raise (e : exn).

Arguments Ok {A} a.
Arguments Raise {A} e.

Definition bind {A B : Type} (m : result A) (k : A -> result B) : result B :=
  match m with
  | Ok a => k a
  | Raise e => Raise e
  end.

Notation "x <- m ;; k" := (bind m (fun x => k))
  (at level 61, m at next level, right associativity).

(** [a != b] on the two kinds of value: a number never equals a string. *)
Definition pyval_eqb (a b : pyval) : bool :=
  match a, b with
  | PyStr s, PyStr t => String.eqb s t
  | PyNum n, PyNum m => Z.eqb n m
  | _, _ => false
  end.

(** [' '.join(l)] on a list of values: the first item that is not a [str]
    raises [TypeError] with its index. *)
Fixpoint join_from (i : nat) (sep : string) (l : list pyval) : result string :=
  match l with
  | [] => Ok ""
  | PyNum _ :: _ => Raise (TypeError i)
  | PyStr x :: r =>
      rest <- join_from (S i) sep r ;;
      Ok (match r with [] => x | _ => x ++ sep ++ rest end)
  end.

Definition py_join (sep : string) (l : list pyval) : result string :=
  join_from 0 sep l.

(** ** Tokens, options and the collaborators *)

(** The attributes of a spaCy token that the program reads.  [is_stop] is not
    stored here: it is a flag of the vocabulary entry of the token's text,
    which the program overrides at start-up (see [is_stop] below). *)
Record Token : Type := mkToken {
  text : string;
  pos_ : string;
  lemma_ : string
}.

(** The keyword arguments of [text_preprocessing], in the order of its
    signature. *)
Record Options : Type := mkOptions {
  accented_chars : bool;
  contractions : bool;
  convert_num : bool;
  extra_whitespace : bool;
  lemmatization : bool;
  lowercase : bool;
  punctuations : bool;
  remove_html : bool;
  remove_num : bool;
  special_chars : bool;
  stop_words : bool
}.

(** "default option set to true for all steps" *)
Definition default_options : Options :=
  mkOptions true true true true true true true true true true true.

(** The imported libraries. *)
Record Env : Type := mkEnv {
  (** [BeautifulSoup(text, "html.parser").get_text(separator=" ")] *)
  bs_get_text : string -> string;
  (** [unidecode.unidecode] *)
  unidecode : string -> string;
  (** [contractions.fix] *)
  contractions_fix : string -> string;
  (** the [is_stop] flag of a vocabulary entry as the model is loaded *)
  vocab_is_stop : string -> bool;
  (** [nlp(text)]: the tokens of the document, in order *)
  nlp : string -> list Token;
  (** [w2n.word_to_num] *)
  word_to_num : string -> result Z;
  (** [re.compile(pat)], seen through [regex.search(x) is not None] *)
  re_compile : string -> result (string -> bool)
}.

(** ** The program *)

Section Program.

Variable env : Env.

(** app.py, lines 37-39. *)
Definition deselect_stop_words : list string := ["no"; "not"; "least"].

(** [token.is_stop] once the loop of lines 38-39 has run. *)
Definition is_stop (tok : Token) : bool :=
  if PyStr.mem (text tok) deselect_stop_words then false
  else vocab_is_stop env (text tok).

Definition strip_html_tags (t : string) : string := bs_get_text env t.

Definition remove_whitespace (t : string) : string :=
  let t := PyStr.strip t in
  PyStr.join " " (PyStr.split t).

Definition remove_accented_chars (t : string) : string := unidecode env t.

Definition expand_contractions (t : string) : string :=
  contractions_fix env t.

(** Lines 73-82: the five cleaning statements. *)
Definition clean (o : Options) (t : string) : string :=
  let t := if remove_html o then strip_html_tags t else t in
  let t := if extra_whitespace o then remove_whitespace t else t in
  let t := if accented_chars o then remove_accented_chars t else t in
  let t := if contractions o then expand_contractions t else t in
  let t := if lowercase o then PyStr.lower t else t in
  t.

(** Lines 89-108: the values of [flag] and [edit] when the last [if] of the
    loop body is reached. *)
Definition token_rules (o : Options) (tok : Token) : result (bool * pyval) :=
  let flag := true in
  let edit := PyStr (text tok) in
  let flag :=
    if stop_words o && is_stop tok && negb (pos_ tok =? "NUM")
    then false else flag in
  let flag :=
    if punctuations o && (pos_ tok =? "PUNCT") && flag
    then false else flag in
  let flag :=
    if special_chars o && (pos_ tok =? "SYM") && flag
    then false else flag in
  let flag :=
    if remove_num o
       && ((pos_ tok =? "NUM") || PyStr.isnumeric (text tok)) && flag
    then false else flag in
  edit <-
    (if convert_num o && (pos_ tok =? "NUM") && flag
     then n <- word_to_num env (text tok) ;; Ok (PyNum n)
     else if lemmatization o && negb (lemma_ tok =? "-PRON-") && flag
     then Ok (PyStr (lemma_ tok))
     else Ok edit) ;;
  Ok (flag, edit).

(** Lines 88-111: one turn of the loop on the list [clean_text]. *)
Definition token_step (o : Options) (clean_text : list pyval) (tok : Token)
  : result (list pyval) :=
  fe <- token_rules o tok ;;
  let '(flag, edit) := fe in
  if negb (pyval_eqb edit (PyStr "")) && flag
  then Ok (clean_text ++ [edit])%list
  else Ok clean_text.

Fixpoint token_loop (o : Options) (clean_text : list pyval)
  (doc : list Token) : result (list pyval) :=
  match doc with
  | [] => Ok clean_text
  | tok :: rest =>
      clean_text' <- token_step o clean_text tok ;;
      token_loop o clean_text' rest
  end.

(** Lines 67-113. *)
Definition text_preprocessing (o : Options) (t : string) : result string :=
  let t := clean o t in
  let doc := nlp env t in
  clean_text <- token_loop o [] doc ;;
  py_join " " clean_text.

(** A row of the table: the columns that [display_table] shows. *)
Record Row : Type := mkRow {
  HSVersions : string;
  HSCode : string;
  HSDesc : string;
  Alpha : string;
  Text_Proc1 : string
}.

(** [series.str.contains(pat)]: the pattern is compiled as a regular
    expression and searched for in every value. *)
Definition str_contains (pat : string) (series : list string)
  : result (list bool) :=
  m <- re_compile env pat ;;
  Ok (map m series).

(** [data[mask]]: the rows whose mask entry is true. *)
Fixpoint select_rows (data : list Row) (mask : list bool) : list Row :=
  match data, mask with
  | r :: data', b :: mask' =>
      if b then r :: select_rows data' mask' else select_rows data' mask'
  | _, _ => []
  end.

(** Lines 672-676: the rows that the search returns. *)
Definition display_table (data : list Row) (search_str : string)
  : result (list Row) :=
  search <- text_preprocessing default_options search_str ;;
  mask <- str_contains (" " ++ search ++ " ") (map Text_Proc1 data) ;;
  Ok (select_rows data mask).

End Program.

(** ** The wording of the specification, as definitions to compare with *)

(** Section 4.3: which of the seven rules a token falls under.  Rules 1 to 4
    all drop the token; rule 5 converts, rule 6 lemmatises, rule 7 keeps. *)
Inductive verdict : Type :=
| Drop
| Convert
| Lemmatize
| Keep.

Definition verdict_eqb (a b : verdict) : bool :=
  match a, b with
  | Drop, Drop | Convert, Convert | Lemmatize, Lemmatize | Keep, Keep => true
  | _, _ => false
  end.

Definition rule_table (env : Env) (o : Options) (tok : Token) : verdict :=
  if stop_words o && is_stop env tok && negb (pos_ tok =? "NUM") then Drop
  else if punctuations o && (pos_ tok =? "PUNCT") then Drop
  else if special_chars o && (pos_ tok =? "SYM") then Drop
  else if remove_num o && ((pos_ tok =? "NUM") || PyStr.isnumeric (text tok))
  then Drop
  else if convert_num o && (pos_ tok =? "NUM") then Convert
  else if lemmatization o && negb (lemma_ tok =? "-PRON-") then Lemmatize
  else Keep.

(** What a verdict means for the pair ([flag], [edit]). *)
Definition apply_verdict (env : Env) (tok : Token) (v : verdict)
  : result (bool * pyval) :=
  match v with
  | Drop => Ok (false, PyStr (text tok))
  | Convert => n <- word_to_num env (text tok) ;; Ok (true, PyNum n)
  | Lemmatize => Ok (true, PyStr (lemma_ tok))
  | Keep => Ok (true, PyStr (text tok))
  end.

(** Section 4.1: the stages as an ordered list of (option, transform). *)
Definition stage_list (env : Env) (o : Options)
  : list (bool * (string -> string)) :=
  [ (remove_html o, strip_html_tags env);
    (extra_whitespace o, remove_whitespace);
    (accented_chars o, remove_accented_chars env);
    (contractions o, expand_contractions env);
    (lowercase o, PyStr.lower) ].

Definition run_stage (t : string) (st : bool * (string -> string)) : string :=
  if fst st then snd st t else t.

Definition run_stages (l : list (bool * (string -> string))) (t : string)
  : string :=
  fold_left run_stage l t.

(** The text a token that is not converted is written with. *)
Definition rewritten (env : Env) (o : Options) (tok : Token) : string :=
  match rule_table env o tok with
  | Lemmatize => lemma_ tok
  | _ => text tok
  end.

(** A token survives when no drop rule matches and its text is not empty. *)
Definition survives (env : Env) (o : Options) (tok : Token) : bool :=
  negb (verdict_eqb (rule_table env o tok) Drop)
  && negb (rewritten env o tok =? "").

Definition survivors (env : Env) (o : Options) (doc : list Token)
  : list Token :=
  filter (survives env o) doc.

(** Section 6: whole-token containment as the specification words it. *)
Definition spec_match (normalized_query row_normalized_text : string) : bool :=
  PyStr.contains (" " ++ normalized_query ++ " ")
                 (" " ++ row_normalized_text ++ " ").

(** The input of the last properties: no character but white space. *)
Definition blank (s : string) : bool := PyStr.forallb_str PyStr.isspace s.

(** A pattern without any character that is special in a regular
    expression stands for itself. *)
Definition metachars : list ascii := list_ascii_of_string ".^$*+?{}[]\|()".

Definition plain_char (c : ascii) : bool :=
  negb (existsb (Ascii.eqb c) metachars).

Definition regex_free (p : string) : bool := PyStr.forallb_str plain_char p.

(** The regular-expression engine on such patterns. *)
Definition literal_search (env : Env) : Prop :=
  forall p, regex_free p = true ->
    exists m, re_compile env p = Ok m /\
              forall s, m s = PyStr.contains p s.

(** The same collaborators with another numeral parser. *)
Definition with_word_to_num (env : Env) (f : string -> result Z) : Env :=
  mkEnv (bs_get_text env) (unidecode env) (contractions_fix env)
        (vocab_is_stop env) (nlp env) f (re_compile env).

(** An exception names a token when its message contains the token's text. *)
Definition names_token (e : exn) (tok : Token) : bool :=
  match e with
  | ValueError msg | ReError msg => PyStr.contains (text tok) msg
  | TypeError _ => false
  end.

(** ** A recorded environment

    The answers of the libraries on the handful of texts used below: the
    texts carry no markup and no accent, one of them has a contraction, the
    markup stripper gives back one space for the text of three spaces, and
    the annotations are those of the English model (white space beyond the
    single separating space is a token of its own, of category SPACE). *)

Module Sample.

Definition get_text (t : string) : string :=
  if t =? "   " then " " else t.

Definition fix_ (t : string) : string :=
  if t =? "Don't use 5 computers!" then "Do not use 5 computers!" else t.

Definition stop_list : list string :=
  ["a"; "do"; "least"; "no"; "not"; "of"; "one"; "the"; "with"].

Definition annotate (t : string) : list Token :=
  if t =? "do not use 5 computers!" then
    [ mkToken "do" "AUX" "do"; mkToken "not" "PART" "not";
      mkToken "use" "VERB" "use"; mkToken "5" "NUM" "5";
      mkToken "computers" "NOUN" "computer"; mkToken "!" "PUNCT" "!" ]
  else if t =? "not use computers" then
    [ mkToken "not" "PART" "not"; mkToken "use" "VERB" "use";
      mkToken "computers" "NOUN" "computer" ]
  else if t =? "computer" then [ mkToken "computer" "NOUN" "computer" ]
  else if t =? "   " then [ mkToken "   " "SPACE" "   " ]
  else if t =? " " then [ mkToken " " "SPACE" " " ]
  else if t =? "tin  ore" then
    [ mkToken "tin" "NOUN" "tin"; mkToken " " "SPACE" " ";
      mkToken "ore" "NOUN" "ore" ]
  else if t =? "tin   ore" then
    [ mkToken "tin" "NOUN" "tin"; mkToken "  " "SPACE" "  ";
      mkToken "ore" "NOUN" "ore" ]
  else if t =? "item 3.5" then
    [ mkToken "item" "NOUN" "item"; mkToken "3.5" "NUM" "3.5" ]
  else if t =? "use five computers" then
    [ mkToken "use" "VERB" "use"; mkToken "five" "NUM" "five";
      mkToken "computers" "NOUN" "computer" ]
  else [].

Definition digit (c : ascii) : bool :=
  let n := nat_of_ascii c in ((48 <=? n) && (n <=? 57))%nat.

Fixpoint digits_value (acc : Z) (s : string) : Z :=
  match s with
  | EmptyString => acc
  | String c r =>
      digits_value (10 * acc + Z.of_nat (nat_of_ascii c - 48)) r
  end.

Definition number_words : list (string * Z) :=
  [ ("zero", 0); ("one", 1); ("two", 2); ("three", 3); ("four", 4);
    ("five", 5); ("six", 6); ("seven", 7); ("eight", 8); ("nine", 9);
    ("ten", 10) ]%Z.

Fixpoint lookup (w : string) (l : list (string * Z)) : option Z :=
  match l with
  | [] => None
  | (k, v) :: r => if w =? k then Some v else lookup w r
  end.

Definition no_number_words : string :=
  "No valid number words found! Please enter a valid number word (eg. two million twenty three thousand and forty nine)".

Definition parse_number (w : string) : result Z :=
  let w := PyStr.lower w in
  match w with
  | EmptyString => Raise (ValueError no_number_words)
  | _ =>
      if PyStr.forallb_str digit w then Ok (digits_value 0 w)
      else match lookup w number_words with
           | Some n => Ok n
           | None => Raise (ValueError no_number_words)
           end
  end.

Definition compile (p : string) : result (string -> bool) :=
  if regex_free p then Ok (PyStr.contains p)
  else Raise (ReError "pattern outside the recorded fragment").

Definition env : Env :=
  mkEnv get_text (fun t => t) fix_
        (fun w => PyStr.mem w stop_list) annotate parse_number compile.

(** All filters and cleaning stages off. *)
Definition all_off : Options :=
  mkOptions false false false false false false false false false false
            false.

(** The defaults with one or two options turned off. *)
Definition keep_whitespace : Options :=
  mkOptions true true true false true true true true true true true.

Definition keep_numbers : Options :=
  mkOptions true true true true true true true true false true true.

Definition surface_only : Options :=
  mkOptions true true false true false true true true true true true.

Definition surface_only_numbers : Options :=
  mkOptions true true false true false true true true false true true.

Definition row (t : string) : Row := mkRow "HS17" "8471" "" "" t.

End Sample.

(** ** A word-by-word annotator

    The text is split at white space and every word gets the category and
    the lemma that a small lexicon gives to its text. *)

Module Lexicon.

Definition tag (w : string) : string :=
  if PyStr.isnumeric w then "NUM"
  else if w =? "!" then "PUNCT"
  else "NOUN".

Definition lemma (w : string) : string :=
  if w =? "computers" then "computer" else w.

Definition annotate_word (w : string) : Token := mkToken w (tag w) (lemma w).

Definition annotate (t : string) : list Token :=
  map annotate_word (PyStr.split t).

Definition env : Env :=
  mkEnv (fun t => t) (fun t => t) (fun t => t)
        (fun w => PyStr.mem w Sample.stop_list) annotate Sample.parse_number
        Sample.compile.

End Lexicon.

(** ** The navigation callbacks *)

(** [str(i)] for a natural number. *)
Definition str_of_nat (i : nat) : string :=
  NilEmpty.string_of_uint (Nat.to_uint i).

(** [range(1, 4)] *)
Definition page_numbers : list nat := seq 1 3.

(** Lines 253-257: the [active] property of the three links. *)
Definition toggle_active_links (pathname : string) : list bool :=
  if pathname =? "/" then [true; false; false]
  else map (fun i => pathname =? "/page-" ++ str_of_nat i) page_numbers.

(** What [render_page_content] returns, by the branch that builds it: the
    layout of each page is fixed, and only the parts that depend on the
    arguments are kept as fields. *)
Inductive Page : Type :=
| AboutPage
| DataPage (records : list Row)
| SearchPage (value : string)
| NotFound (heading message : string).

(** Lines 265-662, for the table [data] of line 116. *)
Definition render_page_content (data : list Row) (pathname : string) : Page :=
  if PyStr.mem pathname ["/"; "/page-1"] then AboutPage
  else if pathname =? "/page-2" then DataPage data
  else if PyStr.mem pathname ["/page-3"] then SearchPage "computer"
  else NotFound "404: Not found"
         ("The pathname " ++ pathname ++ " was not recognised...").

(** The number of the link that a page belongs to. *)
Definition page_link (p : Page) : option nat :=
  match p with
  | AboutPage => Some 1
  | DataPage _ => Some 2
  | SearchPage _ => Some 3
  | NotFound _ _ => None
  end.

(** Lines 744-747: [n] is the number of clicks, [None] before the first. *)
Definition toggle_collapse (n : option Z) (is_open : bool) : bool :=
  let truthy := match n with
                | None => false
                | Some k => negb (k =? 0)%Z
                end in
  if truthy then negb is_open else is_open.

(** The state of the collapse after the clicks number 1 to [k], each click
    running the callback on the state the one before left. *)
Definition after_clicks (k : nat) (is_open : bool) : bool :=
  fold_left (fun st i => toggle_collapse (Some (Z.of_nat i)) st)
            (seq 1 k) is_open.

(** ** Predicates for the further properties *)

(** A word: not empty and without any white-space character. *)
Definition spaceless (w : string) : bool :=
  PyStr.forallb_str (fun c => negb (PyStr.isspace c)) w.

Definition word (w : string) : bool :=
  negb (w =? "") && spaceless w.

(** Every white-space character is the plain space. *)
Definition only_plain_spaces (s : string) : bool :=
  PyStr.forallb_str (fun c => negb (PyStr.isspace c) || Ascii.eqb c " ") s.

(** [o'] enables every drop rule that [o] enables, and rewrites alike. *)
Definition drops_more (o o' : Options) : Prop :=
  (stop_words o = true -> stop_words o' = true)
  /\ (punctuations o = true -> punctuations o' = true)
  /\ (special_chars o = true -> special_chars o' = true)
  /\ (remove_num o = true -> remove_num o' = true)
  /\ convert_num o' = convert_num o
  /\ lemmatization o' = lemmatization o.



(** No rule of the loop is enabled. *)
Definition filters_off (o : Options) : Prop :=
  stop_words o = false /\ punctuations o = false /\ special_chars o = false
  /\ remove_num o = false /\ convert_num o = false
  /\ lemmatization o = false.

(** ** Lemmas on the string primitives *)

Lemma forallb_str_app (p : ascii -> bool) (s t : string) :
  PyStr.forallb_str p (s ++ t)
  = PyStr.forallb_str p s && PyStr.forallb_str p t.
Proof.
  induction s as [|c s IH]; simpl.
  - reflexivity.
  - rewrite IH. apply andb_assoc.
Qed.

Lemma lstrip_blank (s : string) : blank s = true -> PyStr.lstrip s = "".
Proof.
  unfold blank. induction s as [|c s IH]; simpl; intros H.
  - reflexivity.
  - apply andb_prop in H. destruct H as [Hc Hs]. rewrite Hc. auto.
Qed.

Lemma remove_whitespace_blank (s : string) :
  blank s = true -> remove_whitespace s = "".
Proof.
  intros H. unfold remove_whitespace, PyStr.strip.
  rewrite (lstrip_blank s H). reflexivity.
Qed.

Lemma join_from_strs (sep : string) (l : list string) (i : nat) :
  join_from i sep (map PyStr l) = Ok (PyStr.join sep l).
Proof.
  revert i. induction l as [|x r IH]; intros i; simpl.
  - reflexivity.
  - rewrite IH. simpl. destruct r; reflexivity.
Qed.

Lemma join_from_num (sep : string) (l : list pyval) :
  (exists n, In (PyNum n) l) ->
  forall i, exists j, join_from i sep l = Raise (TypeError j).
Proof.
  induction l as [|v r IH]; intros [n Hn] i.
  - destruct Hn.
  - destruct v as [x|m]; simpl.
    + destruct Hn as [Hn|Hn]; [discriminate|].
      destruct (IH (ex_intro _ n Hn) (S i)) as [j Hj].
      exists j. rewrite Hj. reflexivity.
    + exists i. reflexivity.
Qed.

(** The primitives on a few texts. *)
Example remove_whitespace_collapses :
  remove_whitespace "  tin   ore " = "tin ore".
Proof. reflexivity. Qed.

Example lower_folds_case : PyStr.lower "Do Not USE" = "do not use".
Proof. reflexivity. Qed.

Example isnumeric_cases :
  PyStr.isnumeric "2021" = true /\ PyStr.isnumeric "3.5" = false
  /\ PyStr.isnumeric "" = false.
Proof. repeat split. Qed.

Example contains_whole_token :
  PyStr.contains " computer " "personal computer parts" = true
  /\ PyStr.contains " computer " "personal computers" = false.
Proof. split; reflexivity. Qed.

(** ** Lemmas on the loop *)

Section Loop.

Variable env : Env.
Variable o : Options.

Lemma token_rules_table (tok : Token) :
  token_rules env o tok = apply_verdict env tok (rule_table env o tok).
Proof.
  unfold token_rules, rule_table, apply_verdict.
  destruct (stop_words o), (is_stop env tok), (pos_ tok =? "NUM");
    simpl; try reflexivity;
    destruct (punctuations o), (pos_ tok =? "PUNCT");
    simpl; try reflexivity;
    destruct (special_chars o), (pos_ tok =? "SYM");
    simpl; try reflexivity;
    destruct (remove_num o), (PyStr.isnumeric (text tok));
    simpl; try reflexivity;
    destruct (convert_num o); simpl;
    try (destruct (word_to_num env (text tok)); reflexivity);
    destruct (lemmatization o), (lemma_ tok =? "-PRON-"); reflexivity.
Qed.

(** One turn of the loop, read off the verdict. *)
Lemma token_step_table (acc : list pyval) (tok : Token) :
  token_step env o acc tok =
  match rule_table env o tok with
  | Convert =>
      n <- word_to_num env (text tok) ;; Ok (acc ++ [PyNum n])%list
  | _ =>
      Ok (if survives env o tok
          then (acc ++ [PyStr (rewritten env o tok)])%list else acc)
  end.
Proof.
  unfold token_step, survives, rewritten.
  rewrite token_rules_table.
  destruct (rule_table env o tok); simpl.
  - rewrite andb_false_r. reflexivity.
  - destruct (word_to_num env (text tok)); reflexivity.
  - destruct (lemma_ tok =? ""); reflexivity.
  - destruct (text tok =? ""); reflexivity.
Qed.

Lemma token_loop_no_convert (doc : list Token) :
  (forall tok, In tok doc -> rule_table env o tok <> Convert) ->
  forall acc,
    token_loop env o acc doc
    = Ok (acc ++ map (fun tok => PyStr (rewritten env o tok))
                     (survivors env o doc))%list.
Proof.
  induction doc as [|tok rest IH]; intros Hno acc; simpl.
  - rewrite app_nil_r. reflexivity.
  - rewrite token_step_table.
    assert (Hrest : forall t', In t' rest -> rule_table env o t' <> Convert)
      by (intros t' Ht'; apply Hno; right; exact Ht').
    assert (Htok : rule_table env o tok <> Convert)
      by (apply Hno; left; reflexivity).
    unfold survivors in *. simpl filter.
    destruct (rule_table env o tok) eqn:Hv; try congruence;
      simpl bind; rewrite (IH Hrest);
      destruct (survives env o tok); simpl;
      rewrite <- ?app_assoc; reflexivity.
Qed.

(** A number that entered the list, or a token that is converted, leaves a
    number in the list the loop returns. *)
Lemma token_loop_keeps_num (doc : list Token) :
  forall acc l,
    token_loop env o acc doc = Ok l ->
    (exists n, In (PyNum n) acc)
    \/ (exists tok, In tok doc /\ rule_table env o tok = Convert) ->
    exists n, In (PyNum n) l.
Proof.
  induction doc as [|tok rest IH]; intros acc l Hl Hsrc; simpl in Hl.
  - injection Hl as <-. destruct Hsrc as [H|[tok [[] _]]]. exact H.
  - rewrite token_step_table in Hl.
    destruct (rule_table env o tok) eqn:Hv.
    2: { destruct (word_to_num env (text tok)) as [n|e]; simpl in Hl;
         [|discriminate].
         apply (IH _ _ Hl). left. exists n. apply in_or_app.
         right. left. reflexivity. }
    all: simpl in Hl; apply (IH _ _ Hl);
      destruct Hsrc as [[n Hn]|[tok' [[<-|Hin] Hc]]];
      try congruence;
      [ left; exists n; destruct (survives env o tok);
        [apply in_or_app; left|]; exact Hn
      | right; exists tok'; split; assumption ].
Qed.

Lemma token_loop_total (doc : list Token) :
  (forall tok, In tok doc -> rule_table env o tok = Convert ->
               exists n, word_to_num env (text tok) = Ok n) ->
  forall acc, exists l, token_loop env o acc doc = Ok l.
Proof.
  induction doc as [|tok rest IH]; intros Hp acc; simpl.
  - exists acc. reflexivity.
  - rewrite token_step_table.
    assert (Hrest : forall t', In t' rest ->
              rule_table env o t' = Convert ->
              exists n, word_to_num env (text t') = Ok n)
      by (intros t' Ht'; apply Hp; right; exact Ht').
    destruct (rule_table env o tok) eqn:Hv; simpl; try apply (IH Hrest).
    destruct (Hp tok (or_introl eq_refl) Hv) as [n Hn].
    rewrite Hn. simpl. apply (IH Hrest).
Qed.

(** The first converted token that does not parse ends the loop with the
    parser's exception. *)
Lemma token_loop_raises (doc : list Token) :
  (exists tok e, In tok doc /\ rule_table env o tok = Convert
                 /\ word_to_num env (text tok) = Raise e) ->
  forall acc,
  exists tok e, In tok doc /\ rule_table env o tok = Convert
                /\ word_to_num env (text tok) = Raise e
                /\ token_loop env o acc doc = Raise e.
Proof.
  induction doc as [|tok rest IH]; intros (bad & e & Hin & Hc & He) acc.
  - destruct Hin.
  - simpl token_loop. rewrite token_step_table.
    assert (Hnext : bad <> tok ->
              forall acc', exists tok' e', In tok' (tok :: rest)
                /\ rule_table env o tok' = Convert
                /\ word_to_num env (text tok') = Raise e'
                /\ token_loop env o acc' rest = Raise e').
    { intros Hne acc'. destruct Hin as [Heq|Hin]; [congruence|].
      destruct (IH (ex_intro _ bad (ex_intro _ e (conj Hin (conj Hc He))))
                   acc') as (t' & e' & H1 & H2 & H3 & H4).
      exists t', e'. repeat split; try assumption. right. exact H1. }
    destruct (rule_table env o tok) eqn:Hv.
    2: { destruct (word_to_num env (text tok)) as [n|e0] eqn:Hw.
         - simpl. apply Hnext. intros ->. congruence.
         - exists tok, e0. repeat split; try assumption.
           left. reflexivity. }
    all: simpl; apply Hnext; intros ->; congruence.
Qed.

Lemma text_preprocessing_no_convert (t : string) :
  (forall tok, In tok (nlp env (clean env o t)) ->
               rule_table env o tok <> Convert) ->
  text_preprocessing env o t
  = Ok (PyStr.join " " (map (rewritten env o)
                            (survivors env o (nlp env (clean env o t))))).
Proof.
  intros Hno. unfold text_preprocessing.
  rewrite (token_loop_no_convert _ Hno). simpl.
  unfold py_join. rewrite <- (map_map (rewritten env o) PyStr).
  apply join_from_strs.
Qed.

Lemma text_preprocessing_convert_raises (t : string) :
  (exists tok, In tok (nlp env (clean env o t))
               /\ rule_table env o tok = Convert) ->
  exists e, text_preprocessing env o t = Raise e.
Proof.
  intros Hc. unfold text_preprocessing.
  destruct (token_loop env o [] (nlp env (clean env o t))) as [l|e] eqn:Hl.
  - simpl. unfold py_join.
    destruct (join_from_num " " l
                (token_loop_keeps_num _ _ _ Hl (or_intror Hc)) 0) as [j Hj].
    exists (TypeError j). exact Hj.
  - exists e. reflexivity.
Qed.

Lemma remove_num_blocks_convert (tok : Token) :
  remove_num o = true -> rule_table env o tok <> Convert.
Proof.
  intros Hr. unfold rule_table. rewrite Hr. simpl.
  destruct (stop_words o && is_stop env tok && negb (pos_ tok =? "NUM"));
    [discriminate|].
  destruct (punctuations o && (pos_ tok =? "PUNCT")); [discriminate|].
  destruct (special_chars o && (pos_ tok =? "SYM")); [discriminate|].
  destruct (pos_ tok =? "NUM"); simpl; [discriminate|].
  destruct (PyStr.isnumeric (text tok)); [discriminate|].
  rewrite andb_false_r.
  destruct (lemmatization o && negb (lemma_ tok =? "-PRON-"));
    discriminate.
Qed.

Lemma num_is_converted (tok : Token) :
  remove_num o = false -> convert_num o = true -> pos_ tok = "NUM" ->
  rule_table env o tok = Convert.
Proof.
  intros Hr Hc Hp. unfold rule_table. rewrite Hr, Hc, Hp. simpl.
  rewrite !andb_false_r. reflexivity.
Qed.

Lemma survivors_idem (doc : list Token) :
  survivors env o (survivors env o doc) = survivors env o doc.
Proof.
  unfold survivors. induction doc as [|tok rest IH]; simpl.
  - reflexivity.
  - destruct (survives env o tok) eqn:Hs; simpl.
    + rewrite Hs, IH. reflexivity.
    + exact IH.
Qed.

End Loop.

(** ** Lemmas on the search *)

Lemma select_rows_filter (m : string -> bool) (data : list Row) :
  select_rows data (map m (map Text_Proc1 data))
  = filter (fun r => m (Text_Proc1 r)) data.
Proof.
  induction data as [|r rest IH]; simpl.
  - reflexivity.
  - rewrite IH. reflexivity.
Qed.

Lemma regex_free_padded (q : string) :
  regex_free q = true -> regex_free (" " ++ q ++ " ") = true.
Proof.
  intros H. unfold regex_free in *.
  rewrite !forallb_str_app, H. reflexivity.
Qed.

Lemma sample_literal_search : literal_search Sample.env.
Proof.
  intros p Hp. exists (PyStr.contains p). split.
  - simpl. unfold Sample.compile. rewrite Hp. reflexivity.
  - reflexivity.
Qed.

(** ** The token filter (section 4.3) *)

(** C1. For every token, every options record and every list [clean_text],
    one turn of the loop does what the seven rules say, taken in order, the
    first that matches deciding: under rules 1 to 4 (stop word that is not a
    NUM; PUNCT; SYM; NUM or numeric text) the token is left out; under rule
    5 the parsed number is appended; under rule 6 the lemma is appended when
    it is not the pronoun marker; under rule 7 the surface text is appended;
    a lemma or surface text that is empty is not appended.  The values of
    [flag] and [edit] before the last test are those of the same rule. *)
Theorem token_filter_precedence (env : Env) (o : Options)
  (clean_text : list pyval) (tok : Token) :
  token_step env o clean_text tok
  = match rule_table env o tok with
    | Drop => Ok clean_text
    | Convert =>
        n <- word_to_num env (text tok) ;; Ok (clean_text ++ [PyNum n])%list
    | Lemmatize =>
        Ok (if lemma_ tok =? "" then clean_text
            else (clean_text ++ [PyStr (lemma_ tok)])%list)
    | Keep =>
        Ok (if text tok =? "" then clean_text
            else (clean_text ++ [PyStr (text tok)])%list)
    end
  /\ token_rules env o tok = apply_verdict env tok (rule_table env o tok).
Proof.
  split; [|apply token_rules_table].
  rewrite token_step_table. unfold survives, rewritten.
  destruct (rule_table env o tok); simpl; try reflexivity.
  - destruct (lemma_ tok =? ""); reflexivity.
  - destruct (text tok =? ""); reflexivity.
Qed.

(** ** The cleaning stages (section 4.1) *)

(** C4. For every input and options, [clean] is the run of the five stages
    in the order markup, white space, accents, contractions, case; a stage
    whose option is off leaves the text as it is, a stage whose option is on
    applies its transform, whatever the other options are. *)
Theorem clean_runs_stages_in_order (env : Env) (o : Options) (t : string) :
  clean env o t = run_stages (stage_list env o) t
  /\ clean env o t
     = (if lowercase o then PyStr.lower else fun x => x)
         ((if contractions o then contractions_fix env else fun x => x)
            ((if accented_chars o then unidecode env else fun x => x)
               ((if extra_whitespace o then remove_whitespace else fun x => x)
                  ((if remove_html o then bs_get_text env else fun x => x)
                     t))))
  /\ (forall st x, fst st = false -> run_stage x st = x)
  /\ (forall st x, fst st = true -> run_stage x st = snd st x).
Proof.
  repeat split.
  - unfold clean, strip_html_tags, remove_accented_chars, expand_contractions.
    destruct (remove_html o), (extra_whitespace o), (accented_chars o),
      (contractions o), (lowercase o); reflexivity.
  - intros st x H. unfold run_stage. rewrite H. reflexivity.
  - intros st x H. unfold run_stage. rewrite H. reflexivity.
Qed.

(** ** The output string *)

(** C8. For every input and options, [text_preprocessing] returns a string
    exactly when no token falls under rule 5, and that string is the
    rewritten texts of the surviving tokens joined by single spaces, the
    survivors being the tokens of the cleaned input, in their order, that no
    drop rule matches and whose rewritten text is not empty. *)
Theorem output_is_join_of_survivors (env : Env) (o : Options) (t out : string) :
  text_preprocessing env o t = Ok out
  <-> ((forall tok, In tok (nlp env (clean env o t)) ->
                    rule_table env o tok <> Convert)
       /\ out = PyStr.join " "
                  (map (rewritten env o)
                       (filter (survives env o) (nlp env (clean env o t))))).
Proof.
  split.
  - intros Hout.
    assert (Hno : forall tok, In tok (nlp env (clean env o t)) ->
                              rule_table env o tok <> Convert).
    { intros tok Hin Hc.
      destruct (text_preprocessing_convert_raises env o t
                  (ex_intro _ tok (conj Hin Hc))) as [e He].
      congruence. }
    split; [exact Hno|].
    rewrite (text_preprocessing_no_convert env o t Hno) in Hout.
    injection Hout as <-. reflexivity.
  - intros [Hno ->]. apply (text_preprocessing_no_convert env o t Hno).
Qed.

Lemma output_is_join_of_survivors_witness :
  text_preprocessing Sample.env Sample.surface_only "Don't use 5 computers!"
  = Ok "not use computers".
Proof.
  apply (proj2 (output_is_join_of_survivors Sample.env Sample.surface_only
                  "Don't use 5 computers!" "not use computers")).
  split.
  - intros tok _. apply remove_num_blocks_convert. reflexivity.
  - reflexivity.
Defined.

(** ** Numerals *)

(** C10. When [remove_num] is enabled, as it is by default, no token falls
    under rule 5: [text_preprocessing] returns a string for every input, and
    the result does not depend on the numeral parser. *)
Theorem remove_num_shadows_conversion (env : Env) (o : Options) (t : string) :
  remove_num o = true ->
  (forall tok, rule_table env o tok <> Convert)
  /\ (exists out, text_preprocessing env o t = Ok out)
  /\ (forall f, text_preprocessing (with_word_to_num env f) o t
                = text_preprocessing env o t).
Proof.
  intros Hr. repeat split.
  - intros tok. apply remove_num_blocks_convert. exact Hr.
  - eexists. apply text_preprocessing_no_convert.
    intros tok _. apply remove_num_blocks_convert. exact Hr.
  - intros f.
    rewrite !text_preprocessing_no_convert
      by (intros tok _; apply remove_num_blocks_convert; exact Hr).
    reflexivity.
Qed.

Lemma remove_num_shadows_conversion_witness :
  (forall tok, rule_table Sample.env default_options tok <> Convert)
  /\ (exists out,
        text_preprocessing Sample.env default_options "item 3.5" = Ok out)
  /\ (forall f,
        text_preprocessing (with_word_to_num Sample.env f) default_options
                           "item 3.5"
        = text_preprocessing Sample.env default_options "item 3.5").
Proof.
  apply (remove_num_shadows_conversion Sample.env default_options "item 3.5").
  reflexivity.
Defined.

(** C9. With [remove_num] disabled and [convert_num] enabled, an input that
    has a token of category NUM, all of whose NUM tokens parse, makes
    [text_preprocessing] raise the [TypeError] of the final join: the list
    holds a number where [str.join] wants a string. *)
Theorem join_fails_after_conversion (env : Env) (o : Options) (t : string) :
  remove_num o = false ->
  convert_num o = true ->
  (exists tok, In tok (nlp env (clean env o t)) /\ pos_ tok = "NUM") ->
  (forall tok, In tok (nlp env (clean env o t)) -> pos_ tok = "NUM" ->
               exists n, word_to_num env (text tok) = Ok n) ->
  exists i, text_preprocessing env o t = Raise (TypeError i).
Proof.
  intros Hr Hc [num [Hin Hnum]] Hparse.
  unfold text_preprocessing.
  destruct (token_loop_total env o (nlp env (clean env o t))) with (acc := @nil pyval)
    as [l Hl].
  { intros tok Htok Hv. apply Hparse; [exact Htok|].
    unfold rule_table in Hv.
    destruct (pos_ tok =? "NUM") eqn:Hp; [apply String.eqb_eq; exact Hp|].
    rewrite !andb_false_r in Hv. simpl in Hv.
    repeat match type of Hv with
           | (if ?b then _ else _) = _ => destruct b; try discriminate
           end. }
  rewrite Hl. simpl. unfold py_join.
  apply join_from_num.
  apply (token_loop_keeps_num env o _ _ _ Hl). right.
  exists num. split; [exact Hin|].
  apply num_is_converted; assumption.
Qed.

Lemma join_fails_after_conversion_witness :
  exists i,
    text_preprocessing Sample.env Sample.keep_numbers "use five computers"
    = Raise (TypeError i).
Proof.
  apply (join_fails_after_conversion Sample.env Sample.keep_numbers
           "use five computers").
  - reflexivity.
  - reflexivity.
  - exists (mkToken "five" "NUM" "five"). split; [|reflexivity].
    vm_compute. right. left. reflexivity.
  - intros tok Hin Hp. vm_compute in Hin.
    destruct Hin as [<-|[<-|[<-|[]]]]; try discriminate Hp.
    exists 5%Z. reflexivity.
Defined.

(** C5, as the code has it. When some token falls under rule 5 and the
    numeral parser raises on it, [text_preprocessing] raises: the exception
    is the one the parser raised on such a token, passed on as it is, and no
    string is returned. *)
Theorem conversion_failure_aborts (env : Env) (o : Options) (t : string) :
  (exists tok e, In tok (nlp env (clean env o t))
                 /\ rule_table env o tok = Convert
                 /\ word_to_num env (text tok) = Raise e) ->
  exists tok e, In tok (nlp env (clean env o t))
                /\ rule_table env o tok = Convert
                /\ word_to_num env (text tok) = Raise e
                /\ text_preprocessing env o t = Raise e.
Proof.
  intros Hbad.
  destruct (token_loop_raises env o _ Hbad []) as (tok & e & H1 & H2 & H3 & H4).
  exists tok, e. repeat split; try assumption.
  unfold text_preprocessing. rewrite H4. reflexivity.
Qed.

Lemma conversion_failure_aborts_witness :
  exists tok e, In tok (nlp Sample.env (clean Sample.env Sample.keep_numbers
                                              "item 3.5"))
                /\ rule_table Sample.env Sample.keep_numbers tok = Convert
                /\ word_to_num Sample.env (text tok) = Raise e
                /\ text_preprocessing Sample.env Sample.keep_numbers "item 3.5"
                   = Raise e.
Proof.
  apply (conversion_failure_aborts Sample.env Sample.keep_numbers "item 3.5").
  exists (mkToken "3.5" "NUM" "3.5"), (ValueError Sample.no_number_words).
  split; [vm_compute; right; left; reflexivity|].
  split; reflexivity.
Defined.

(** C5, as the claim has it, fails: the exception that leaves
    [text_preprocessing] is the parser's own, and its message does not
    mention the token 3.5 that could not be parsed. *)
Lemma conversion_error_does_not_name_token :
  let tok := mkToken "3.5" "NUM" "3.5" in
  let e := ValueError Sample.no_number_words in
  In tok (nlp Sample.env (clean Sample.env Sample.keep_numbers "item 3.5"))
  /\ rule_table Sample.env Sample.keep_numbers tok = Convert
  /\ word_to_num Sample.env (text tok) = Raise e
  /\ text_preprocessing Sample.env Sample.keep_numbers "item 3.5" = Raise e
  /\ names_token e tok = false.
Proof.
  repeat split; try reflexivity.
  vm_compute. right. left. reflexivity.
Qed.

(** ** The worked example of section 8 *)

(** C3, as the code has it. With the default options, and the libraries
    answering on this sentence as the English model does, the input
    "Don't use 5 computers!" gives "not use computer": "do" goes as a stop
    word, "not" stays because of the override list, "5" goes under rule 4
    since [remove_num] is on, "computers" becomes its lemma and "!" goes as
    punctuation. *)
Theorem default_example_output (env : Env) :
  bs_get_text env "Don't use 5 computers!" = "Don't use 5 computers!" ->
  unidecode env "Don't use 5 computers!" = "Don't use 5 computers!" ->
  contractions_fix env "Don't use 5 computers!" = "Do not use 5 computers!" ->
  nlp env "do not use 5 computers!"
  = [ mkToken "do" "AUX" "do"; mkToken "not" "PART" "not";
      mkToken "use" "VERB" "use"; mkToken "5" "NUM" "5";
      mkToken "computers" "NOUN" "computer"; mkToken "!" "PUNCT" "!" ] ->
  vocab_is_stop env "do" = true ->
  vocab_is_stop env "use" = false ->
  vocab_is_stop env "computers" = false ->
  text_preprocessing env default_options "Don't use 5 computers!"
  = Ok "not use computer".
Proof.
  intros Hbs Hun Hfix Hnlp Hdo Huse Hcomp.
  assert (Hclean : clean env default_options "Don't use 5 computers!"
                   = "do not use 5 computers!").
  { unfold clean, strip_html_tags, remove_accented_chars, expand_contractions.
    simpl remove_html. simpl extra_whitespace. simpl accented_chars.
    simpl contractions. simpl lowercase. cbv iota.
    rewrite Hbs.
    change (remove_whitespace "Don't use 5 computers!")
      with "Don't use 5 computers!".
    rewrite Hun, Hfix. reflexivity. }
  rewrite text_preprocessing_no_convert
    by (intros tok _; apply remove_num_blocks_convert; reflexivity).
  rewrite Hclean, Hnlp.
  unfold survivors, survives, rewritten, rule_table, is_stop. simpl.
  rewrite Hdo, Huse, Hcomp. simpl.
  destruct (vocab_is_stop env "5"), (vocab_is_stop env "!");
    simpl; rewrite ?Hdo, ?Huse, ?Hcomp; reflexivity.
Qed.

Lemma default_example_output_witness :
  text_preprocessing Sample.env default_options "Don't use 5 computers!"
  = Ok "not use computer".
Proof.
  apply (default_example_output Sample.env); reflexivity.
Defined.

(** C3, as the claim has it, fails: the result is not "not use 5 computer". *)
Lemma default_example_drops_five :
  text_preprocessing Sample.env default_options "Don't use 5 computers!"
  <> Ok "not use 5 computer".
Proof.
  vm_compute. discriminate.
Qed.

(** ** Blank input *)

(** C6, as the code has it. When the libraries map the empty text to the
    empty text (no token for it) and the markup stripper maps blank text to
    blank text, [text_preprocessing] returns the empty string on the empty
    input whatever the options, and on every blank input when
    [extra_whitespace] is enabled. *)
Theorem blank_input_empty_output (env : Env) (o : Options) (t : string) :
  bs_get_text env "" = "" ->
  (forall s, blank s = true -> blank (bs_get_text env s) = true) ->
  unidecode env "" = "" ->
  contractions_fix env "" = "" ->
  nlp env "" = [] ->
  t = "" \/ (blank t = true /\ extra_whitespace o = true) ->
  text_preprocessing env o t = Ok "".
Proof.
  intros Hbs0 Hbs Hun Hfix Hnlp Ht.
  assert (Hclean : clean env o t = "").
  { unfold clean, strip_html_tags, remove_accented_chars, expand_contractions.
    destruct Ht as [->|[Hb He]].
    - destruct (remove_html o); rewrite ?Hbs0;
        destruct (extra_whitespace o);
        rewrite ?(remove_whitespace_blank "" eq_refl);
        destruct (accented_chars o); rewrite ?Hun;
        destruct (contractions o); rewrite ?Hfix;
        destruct (lowercase o); reflexivity.
    - rewrite He.
      assert (Hw : remove_whitespace
                     (if remove_html o then bs_get_text env t else t) = "").
      { apply remove_whitespace_blank.
        destruct (remove_html o); [apply Hbs|]; exact Hb. }
      rewrite Hw.
      destruct (accented_chars o); rewrite ?Hun;
        destruct (contractions o); rewrite ?Hfix;
        destruct (lowercase o); reflexivity. }
  unfold text_preprocessing. rewrite Hclean, Hnlp. reflexivity.
Qed.

Lemma blank_input_empty_output_witness :
  text_preprocessing Sample.env default_options "   " = Ok "".
Proof.
  apply (blank_input_empty_output Sample.env default_options "   ");
    try reflexivity.
  - intros s Hs. simpl. unfold Sample.get_text.
    destruct (s =? "   "); [reflexivity | exact Hs].
  - right. split; reflexivity.
Defined.

(** C6, as the claim has it, fails: with every option disabled the three
    spaces reach the annotator as they are, its white-space token passes the
    loop, and the result is the three spaces; with the defaults but
    [extra_whitespace] disabled the markup stripper hands one space on, and
    the result is that space. *)
Lemma blank_input_survives_uncollapsed :
  blank "   " = true
  /\ text_preprocessing Sample.env Sample.all_off "   " = Ok "   "
  /\ text_preprocessing Sample.env Sample.keep_whitespace "   " = Ok " ".
Proof.
  repeat split.
Qed.

(** ** Running the pipeline on its own output *)


(** ** The search *)

(** C2, as the code has it. When the regular-expression engine treats a
    pattern without special characters as itself, the query normalises to
    [nq] and [nq] has no special character, the search returns the rows, in
    table order, whose stored text contains [nq] with a space before and a
    space after; the stored text is searched as it is. *)
Theorem display_table_selects (env : Env) (data : list Row)
  (search_str nq : string) :
  literal_search env ->
  text_preprocessing env default_options search_str = Ok nq ->
  regex_free nq = true ->
  display_table env data search_str
  = Ok (filter (fun r => PyStr.contains (" " ++ nq ++ " ") (Text_Proc1 r))
               data).
Proof.
  intros Hre Hnq Hfree. unfold display_table, str_contains.
  rewrite Hnq. simpl bind.
  destruct (Hre _ (regex_free_padded nq Hfree)) as [m [Hm Hs]].
  change (String " " (nq ++ " ")) with (" " ++ nq ++ " ").
  rewrite Hm. simpl bind.
  rewrite select_rows_filter. f_equal.
  apply filter_ext. intros r. apply Hs.
Qed.

Lemma display_table_selects_witness :
  display_table Sample.env
    [ Sample.row "computer"; Sample.row "personal computer parts";
      Sample.row "computers"; Sample.row "computer parts" ]
    "computer"
  = Ok (filter (fun r => PyStr.contains " computer " (Text_Proc1 r))
          [ Sample.row "computer"; Sample.row "personal computer parts";
            Sample.row "computers"; Sample.row "computer parts" ]).
Proof.
  apply (display_table_selects Sample.env _ "computer" "computer").
  - exact sample_literal_search.
  - reflexivity.
  - reflexivity.
Defined.

(** C2, as the claim has it, fails: the query "computer" normalises to
    "computer", the specification's test accepts the row whose stored text
    is "computer", and the search returns no row. *)
Lemma search_misses_sole_token :
  text_preprocessing Sample.env default_options "computer" = Ok "computer"
  /\ spec_match "computer" (Text_Proc1 (Sample.row "computer")) = true
  /\ display_table Sample.env [Sample.row "computer"] "computer" = Ok [].
Proof.
  repeat split.
Qed.

(** ** White-space normalisation (lines 49-52) *)

Lemma append_empty_r (s : string) : s ++ "" = s.
Proof.
  induction s as [|c s IH]; simpl; [reflexivity | rewrite IH; reflexivity].
Qed.

Lemma append_assoc (a b c : string) : (a ++ b) ++ c = a ++ b ++ c.
Proof.
  induction a as [|x a IH]; simpl; [reflexivity | rewrite IH; reflexivity].
Qed.

Lemma forallb_str_of_list (p : ascii -> bool) (l : list ascii) :
  PyStr.forallb_str p (string_of_list_ascii l) = forallb p l.
Proof.
  induction l as [|c l IH]; simpl; [reflexivity | rewrite IH; reflexivity].
Qed.

Lemma forallb_rev_eq (p : ascii -> bool) (l : list ascii) :
  forallb p (rev l) = forallb p l.
Proof.
  induction l as [|c l IH]; simpl.
  - reflexivity.
  - rewrite forallb_app, IH. simpl. rewrite andb_true_r. apply andb_comm.
Qed.

Lemma word_spaceless (w : string) : word w = true -> spaceless w = true.
Proof.
  unfold word. intros H. apply andb_prop in H. apply H.
Qed.

Lemma word_cons (w : string) :
  word w = true ->
  exists c r, w = String c r /\ PyStr.isspace c = false /\ spaceless r = true.
Proof.
  unfold word, spaceless. destruct w as [|c r]; simpl; [discriminate|].
  intros H. apply andb_prop in H. destruct H as [Hc Hr].
  exists c, r. repeat split; [|exact Hr].
  destruct (PyStr.isspace c); [discriminate | reflexivity].
Qed.

Lemma flush_word (cur : list ascii) :
  forallb (fun c => negb (PyStr.isspace c)) cur = true ->
  Forall (fun w => word w = true) (PyStr.flush cur).
Proof.
  intros H. destruct cur as [|c cur]; simpl; constructor; [|constructor].
  unfold word, spaceless, PyStr.rev_string.
  rewrite forallb_str_of_list, forallb_rev_eq, H, andb_true_r.
  simpl rev. destruct (rev cur); reflexivity.
Qed.

Lemma split_aux_words (s : string) :
  forall cur, forallb (fun c => negb (PyStr.isspace c)) cur = true ->
              Forall (fun w => word w = true) (PyStr.split_aux cur s).
Proof.
  induction s as [|c s IH]; intros cur Hcur; simpl.
  - apply flush_word. exact Hcur.
  - destruct (PyStr.isspace c) eqn:Hc.
    + apply Forall_app. split; [apply flush_word; exact Hcur|].
      apply IH. reflexivity.
    + apply IH. simpl. rewrite Hc, Hcur. reflexivity.
Qed.

Lemma split_aux_spaceless (w r : string) :
  spaceless w = true ->
  forall cur, PyStr.split_aux cur (w ++ r)
              = PyStr.split_aux (rev (list_ascii_of_string w) ++ cur) r.
Proof.
  unfold spaceless. induction w as [|c w IH]; simpl; intros H cur.
  - reflexivity.
  - apply andb_prop in H. destruct H as [Hc Hw].
    destruct (PyStr.isspace c); [discriminate|].
    rewrite (IH Hw), <- app_assoc. reflexivity.
Qed.

Lemma flush_rev_word (w : string) :
  word w = true -> PyStr.flush (rev (list_ascii_of_string w)) = [w].
Proof.
  intros H. destruct (word_cons w H) as (c & r & -> & _ & _).
  unfold PyStr.flush, PyStr.rev_string.
  rewrite rev_involutive, string_of_list_ascii_of_string.
  simpl. destruct (rev (list_ascii_of_string r)); reflexivity.
Qed.

(** Splitting undoes joining with single spaces. *)
Lemma split_join (ws : list string) :
  Forall (fun w => word w = true) ws ->
  PyStr.split (PyStr.join " " ws) = ws.
Proof.
  unfold PyStr.split. induction 1 as [|w ws Hw Hws IH].
  - reflexivity.
  - destruct ws as [|w2 ws'].
    + simpl. rewrite <- (append_empty_r w) at 1.
      rewrite (split_aux_spaceless w "" (word_spaceless w Hw)).
      rewrite app_nil_r. simpl. apply flush_rev_word. exact Hw.
    + change (PyStr.join " " (w :: w2 :: ws'))
        with (w ++ String " " (PyStr.join " " (w2 :: ws'))).
      set (J := PyStr.join " " (w2 :: ws')) in *.
      rewrite (split_aux_spaceless w _ (word_spaceless w Hw)).
      rewrite app_nil_r.
      change (PyStr.split_aux (rev (list_ascii_of_string w)) (String " " J))
        with (PyStr.flush (rev (list_ascii_of_string w))
              ++ PyStr.split_aux [] J)%list.
      rewrite (flush_rev_word w Hw), IH. reflexivity.
Qed.

Lemma split_lstrip (s : string) :
  PyStr.split (PyStr.lstrip s) = PyStr.split s.
Proof.
  unfold PyStr.split. induction s as [|c s IH]; simpl.
  - reflexivity.
  - destruct (PyStr.isspace c) eqn:Hc; [exact IH|].
    simpl. rewrite Hc. reflexivity.
Qed.

Lemma split_aux_blank (s : string) :
  blank s = true -> forall cur, PyStr.split_aux cur s = PyStr.flush cur.
Proof.
  unfold blank. induction s as [|c s IH]; simpl; intros H cur.
  - reflexivity.
  - apply andb_prop in H. destruct H as [Hc Hs]. rewrite Hc.
    rewrite (IH Hs). apply app_nil_r.
Qed.

Lemma rstrip_empty_blank (s : string) :
  PyStr.rstrip s = "" -> blank s = true.
Proof.
  unfold blank. induction s as [|c s IH]; simpl; intros H.
  - reflexivity.
  - destruct (PyStr.rstrip s); [|discriminate].
    destruct (PyStr.isspace c); [|discriminate].
    apply IH. reflexivity.
Qed.

Lemma split_aux_rstrip (s : string) :
  forall cur, PyStr.split_aux cur (PyStr.rstrip s) = PyStr.split_aux cur s.
Proof.
  induction s as [|c s IH]; intros cur; simpl.
  - reflexivity.
  - destruct (PyStr.rstrip s) as [|d r'] eqn:Hr.
    + pose proof (rstrip_empty_blank s Hr) as Hb.
      destruct (PyStr.isspace c) eqn:Hc; simpl.
      * rewrite (split_aux_blank s Hb). symmetry. apply app_nil_r.
      * rewrite Hc. rewrite (split_aux_blank s Hb). reflexivity.
    + destruct (PyStr.isspace c) eqn:Hc; rewrite <- IH; simpl;
        rewrite Hc; reflexivity.
Qed.

(** The [strip] of line 51 changes nothing for line 52. *)
Lemma remove_whitespace_split (t : string) :
  remove_whitespace t = PyStr.join " " (PyStr.split t).
Proof.
  unfold remove_whitespace, PyStr.strip. f_equal.
  unfold PyStr.split at 1. rewrite split_aux_rstrip.
  apply split_lstrip.
Qed.

Lemma split_words (t : string) :
  Forall (fun w => word w = true) (PyStr.split t).
Proof.
  apply split_aux_words. reflexivity.
Qed.

Lemma split_aux_nil (s : string) :
  forall cur, PyStr.split_aux cur s = [] -> cur = [] /\ blank s = true.
Proof.
  unfold blank. induction s as [|c s IH]; simpl; intros cur H.
  - destruct cur; [split; reflexivity | discriminate].
  - destruct (PyStr.isspace c).
    + apply app_eq_nil in H. destruct H as [Hf Hs].
      destruct (IH _ Hs) as [_ Hb]. rewrite Hb.
      destruct cur; [split; reflexivity | discriminate].
    + destruct (IH _ H) as [Hcur _]. discriminate.
Qed.

Lemma join_words_head (w : string) (ws : list string) :
  word w = true ->
  exists c r, PyStr.join " " (w :: ws) = String c r
              /\ PyStr.isspace c = false.
Proof.
  intros Hw. destruct (word_cons w Hw) as (c & r & -> & Hc & _).
  destruct ws; simpl; eauto.
Qed.

Lemma spaceless_plain (w : string) :
  spaceless w = true -> only_plain_spaces w = true.
Proof.
  unfold spaceless, only_plain_spaces.
  induction w as [|c w IH]; simpl; intros H; [reflexivity|].
  apply andb_prop in H. destruct H as [Hc Hw].
  rewrite Hc, (IH Hw). reflexivity.
Qed.

Lemma join_plain_spaces (ws : list string) :
  Forall (fun w => word w = true) ws ->
  only_plain_spaces (PyStr.join " " ws) = true.
Proof.
  induction 1 as [|w ws Hw Hws IH]; [reflexivity|].
  destruct ws as [|w2 ws'].
  - apply spaceless_plain, word_spaceless, Hw.
  - change (PyStr.join " " (w :: w2 :: ws'))
      with (w ++ " " ++ PyStr.join " " (w2 :: ws')).
    unfold only_plain_spaces in *. rewrite !forallb_str_app, IH.
    fold (only_plain_spaces w).
    rewrite (spaceless_plain w (word_spaceless w Hw)). reflexivity.
Qed.

Lemma contains_cons (p : string) (c : ascii) (r : string) :
  PyStr.contains p (String c r)
  = prefix p (String c r) || PyStr.contains p r.
Proof.
  reflexivity.
Qed.

Lemma prefix_cons (a : ascii) (p : string) (c : ascii) (r : string) :
  prefix (String a p) (String c r)
  = if ascii_dec a c then prefix p r else false.
Proof.
  reflexivity.
Qed.

(** A pattern that starts with a space is not found inside a word. *)
Lemma contains_skip_spaceless (p w r : string) :
  spaceless w = true ->
  PyStr.contains (String " " p) (w ++ r) = PyStr.contains (String " " p) r.
Proof.
  unfold spaceless. induction w as [|c w IH]; intros H.
  - reflexivity.
  - simpl in H. apply andb_prop in H. destruct H as [Hc Hw].
    change (String c w ++ r) with (String c (w ++ r)).
    rewrite contains_cons, prefix_cons, (IH Hw).
    destruct (ascii_dec " " c) as [<-|_]; [discriminate | reflexivity].
Qed.

Lemma join_no_double_space (ws : list string) :
  Forall (fun w => word w = true) ws ->
  PyStr.contains "  " (PyStr.join " " ws) = false.
Proof.
  induction 1 as [|w ws Hw Hws IH]; [reflexivity|].
  destruct ws as [|w2 ws'].
  - simpl PyStr.join. rewrite <- (append_empty_r w).
    rewrite (contains_skip_spaceless " " w "" (word_spaceless w Hw)).
    reflexivity.
  - change (PyStr.join " " (w :: w2 :: ws'))
      with (w ++ String " " (PyStr.join " " (w2 :: ws'))).
    rewrite (contains_skip_spaceless " " w _ (word_spaceless w Hw)).
    inversion Hws as [|? ? Hw2 _]; subst.
    destruct (join_words_head w2 ws' Hw2) as (c & r & Hj & Hc).
    rewrite Hj in *.
    rewrite contains_cons, IH, orb_false_r, !prefix_cons.
    destruct (ascii_dec " " " ") as [_|]; [|reflexivity].
    destruct (ascii_dec " " c) as [<-|_]; [discriminate | reflexivity].
Qed.

Lemma rstrip_spaceless (w : string) :
  spaceless w = true -> PyStr.rstrip w = w.
Proof.
  unfold spaceless. induction w as [|c w IH]; simpl; intros H.
  - reflexivity.
  - apply andb_prop in H. destruct H as [Hc Hw]. rewrite (IH Hw).
    destruct w; [|reflexivity].
    destruct (PyStr.isspace c); [discriminate | reflexivity].
Qed.

Lemma rstrip_append (a b : string) :
  PyStr.rstrip b <> "" -> PyStr.rstrip (a ++ b) = a ++ PyStr.rstrip b.
Proof.
  intros Hb. induction a as [|c a IH]; simpl.
  - reflexivity.
  - rewrite IH. destruct (a ++ PyStr.rstrip b) eqn:E; [|reflexivity].
    destruct a; simpl in E; [contradiction | discriminate].
Qed.

Lemma join_strip_fixed (ws : list string) :
  Forall (fun w => word w = true) ws ->
  PyStr.strip (PyStr.join " " ws) = PyStr.join " " ws.
Proof.
  intros Hws. unfold PyStr.strip.
  assert (Hl : PyStr.lstrip (PyStr.join " " ws) = PyStr.join " " ws).
  { destruct Hws as [|w ws Hw Hws]; [reflexivity|].
    destruct (join_words_head w ws Hw) as (c & r & -> & Hc).
    simpl. rewrite Hc. reflexivity. }
  rewrite Hl. clear Hl.
  induction Hws as [|w ws Hw Hws IH]; [reflexivity|].
  destruct ws as [|w2 ws'].
  - apply rstrip_spaceless, word_spaceless, Hw.
  - change (PyStr.join " " (w :: w2 :: ws'))
      with (w ++ String " " (PyStr.join " " (w2 :: ws'))).
    inversion Hws as [|? ? Hw2 _]; subst.
    destruct (join_words_head w2 ws' Hw2) as (c & r & Hj & Hc).
    assert (Hstep : PyStr.rstrip (String " " (PyStr.join " " (w2 :: ws')))
                    = String " " (PyStr.join " " (w2 :: ws'))).
    { change (String " " (PyStr.join " " (w2 :: ws')))
        with (" " ++ PyStr.join " " (w2 :: ws')).
      rewrite rstrip_append; rewrite IH; [reflexivity|].
      rewrite Hj. discriminate. }
    rewrite rstrip_append; rewrite Hstep; [reflexivity | discriminate].
Qed.

(** X1. Normalising white space twice is normalising it once. *)
Theorem remove_whitespace_idempotent (t : string) :
  remove_whitespace (remove_whitespace t) = remove_whitespace t.
Proof.
  rewrite (remove_whitespace_split (remove_whitespace t)).
  rewrite (remove_whitespace_split t).
  rewrite split_join; [reflexivity | apply split_words].
Qed.

(** X2. [remove_whitespace] keeps the words of the text, in their order: the
    maximal runs of characters that are not white space are the same before
    and after. *)
Theorem remove_whitespace_keeps_words (t : string) :
  PyStr.split (remove_whitespace t) = PyStr.split t.
Proof.
  rewrite remove_whitespace_split. apply split_join, split_words.
Qed.

(** X3. The result of [remove_whitespace] has no white space at either end,
    no white-space character but the plain space, and no two spaces in a
    row. *)
Theorem remove_whitespace_single_spaced (t : string) :
  PyStr.strip (remove_whitespace t) = remove_whitespace t
  /\ only_plain_spaces (remove_whitespace t) = true
  /\ PyStr.contains "  " (remove_whitespace t) = false.
Proof.
  rewrite remove_whitespace_split.
  pose proof (split_words t) as Hw.
  split; [apply join_strip_fixed; exact Hw|].
  split; [apply join_plain_spaces | apply join_no_double_space]; exact Hw.
Qed.

(** X4. [remove_whitespace] returns the empty string exactly on the texts
    that hold nothing but white space. *)
Theorem remove_whitespace_empty_iff (t : string) :
  remove_whitespace t = "" <-> blank t = true.
Proof.
  split; [|apply remove_whitespace_blank].
  rewrite remove_whitespace_split. intros H.
  pose proof (split_words t) as Hw.
  destruct (PyStr.split t) as [|w ws] eqn:Hs.
  - apply (split_aux_nil t [] Hs).
  - inversion Hw as [|? ? Hw1 _]; subst.
    destruct (join_words_head w ws Hw1) as (c & r & Hj & _).
    rewrite Hj in H. discriminate.
Qed.

(** ** Further properties of the token rules (lines 88-111) *)

(** The four drop rules as one test. *)
Lemma rule_table_drop_or_rewrite (env : Env) (o : Options) (tok : Token) :
  rule_table env o tok
  = if (stop_words o && is_stop env tok && negb (pos_ tok =? "NUM"))
       || (punctuations o && (pos_ tok =? "PUNCT"))
       || (special_chars o && (pos_ tok =? "SYM"))
       || (remove_num o
           && ((pos_ tok =? "NUM") || PyStr.isnumeric (text tok)))
    then Drop
    else if convert_num o && (pos_ tok =? "NUM") then Convert
    else if lemmatization o && negb (lemma_ tok =? "-PRON-") then Lemmatize
    else Keep.
Proof.
  unfold rule_table.
  destruct (stop_words o && is_stop env tok && negb (pos_ tok =? "NUM"));
    [reflexivity|].
  destruct (punctuations o && (pos_ tok =? "PUNCT")); [reflexivity|].
  destruct (special_chars o && (pos_ tok =? "SYM")); [reflexivity|].
  destruct (remove_num o
            && ((pos_ tok =? "NUM") || PyStr.isnumeric (text tok)));
    reflexivity.
Qed.

Lemma not_drop_chain (env : Env) (o : Options) (tok : Token) :
  rule_table env o tok <> Drop ->
  rule_table env o tok
  = if convert_num o && (pos_ tok =? "NUM") then Convert
    else if lemmatization o && negb (lemma_ tok =? "-PRON-") then Lemmatize
    else Keep.
Proof.
  rewrite rule_table_drop_or_rewrite.
  destruct (_ || _ || _ || _); [congruence | reflexivity].
Qed.

Lemma override_not_dropped (env : Env) (o : Options) (tok : Token) :
  PyStr.mem (text tok) deselect_stop_words = true ->
  pos_ tok <> "NUM" -> pos_ tok <> "PUNCT" -> pos_ tok <> "SYM" ->
  rule_table env o tok
  = if lemmatization o && negb (lemma_ tok =? "-PRON-") then Lemmatize
    else Keep.
Proof.
  intros Hmem Hn Hp Hs.
  apply String.eqb_neq in Hn, Hp, Hs.
  rewrite rule_table_drop_or_rewrite.
  unfold is_stop. rewrite Hmem, Hn, Hp, Hs, !andb_false_r. simpl.
  assert (Hnum : PyStr.isnumeric (text tok) = false).
  { unfold PyStr.mem, deselect_stop_words in Hmem. simpl in Hmem.
    repeat (apply orb_prop in Hmem; destruct Hmem as [Hmem|Hmem]);
      try discriminate;
      apply String.eqb_eq in Hmem; rewrite Hmem; reflexivity. }
  rewrite Hnum, !andb_false_r. reflexivity.
Qed.

Lemma override_text_not_empty (tok : Token) :
  PyStr.mem (text tok) deselect_stop_words = true -> (text tok =? "") = false.
Proof.
  unfold PyStr.mem, deselect_stop_words. simpl. intros Hmem.
  repeat (apply orb_prop in Hmem; destruct Hmem as [Hmem|Hmem]);
    try discriminate;
    apply String.eqb_eq in Hmem; rewrite Hmem; reflexivity.
Qed.

(** X5. A token whose text is "no", "not" or "least" is appended by the
    loop whatever the options and whatever the vocabulary says of it, as its
    lemma when rule 6 applies and as its surface text otherwise, unless the
    annotator gives it the category NUM, PUNCT or SYM, or an empty lemma
    while [lemmatization] is enabled. *)
Theorem override_words_are_kept (env : Env) (o : Options)
  (clean_text : list pyval) (tok : Token) :
  PyStr.mem (text tok) deselect_stop_words = true ->
  pos_ tok <> "NUM" -> pos_ tok <> "PUNCT" -> pos_ tok <> "SYM" ->
  (lemmatization o = true -> lemma_ tok <> "") ->
  token_step env o clean_text tok
  = Ok (clean_text
        ++ [PyStr (if lemmatization o && negb (lemma_ tok =? "-PRON-")
                   then lemma_ tok else text tok)])%list.
Proof.
  intros Hmem Hn Hp Hs Hlem.
  rewrite token_step_table. unfold survives, rewritten.
  rewrite (override_not_dropped env o tok Hmem Hn Hp Hs).
  destruct (lemmatization o) eqn:Hl; simpl.
  - destruct (lemma_ tok =? "-PRON-"); simpl.
    + rewrite (override_text_not_empty tok Hmem). reflexivity.
    + apply String.eqb_neq in Hlem; [|reflexivity].
      rewrite Hlem. reflexivity.
  - rewrite (override_text_not_empty tok Hmem). reflexivity.
Qed.

Lemma override_words_are_kept_witness :
  token_step Sample.env default_options [PyStr "do"]
             (mkToken "not" "PART" "not")
  = Ok [PyStr "do"; PyStr "not"].
Proof.
  apply (override_words_are_kept Sample.env default_options [PyStr "do"]
           (mkToken "not" "PART" "not"));
    [reflexivity | discriminate | discriminate | discriminate
    | intros _; discriminate].
Defined.

Lemma num_rule_without_removal (env : Env) (o : Options) (tok : Token) :
  pos_ tok = "NUM" ->
  remove_num o = false ->
  rule_table env o tok
  = if convert_num o then Convert
    else if lemmatization o && negb (lemma_ tok =? "-PRON-") then Lemmatize
    else Keep.
Proof.
  intros Hp Hr. rewrite rule_table_drop_or_rewrite, Hp, Hr. simpl.
  rewrite !andb_false_r, !andb_true_r. reflexivity.
Qed.

(** X6. When [remove_num] is disabled the loop never leaves out a token of
    category NUM because it is a stop word: it converts the token when
    [convert_num] is enabled, and otherwise appends its lemma (when rule 6
    applies) or its surface text, unless that text is empty. *)
Theorem numbers_escape_the_stop_rule (env : Env) (o : Options)
  (clean_text : list pyval) (tok : Token) :
  pos_ tok = "NUM" ->
  remove_num o = false ->
  token_step env o clean_text tok
  = if convert_num o
    then n <- word_to_num env (text tok) ;; Ok (clean_text ++ [PyNum n])%list
    else
      let s := if lemmatization o && negb (lemma_ tok =? "-PRON-")
               then lemma_ tok else text tok in
      Ok (if s =? "" then clean_text else (clean_text ++ [PyStr s])%list).
Proof.
  intros Hp Hr. rewrite token_step_table. unfold survives, rewritten.
  rewrite (num_rule_without_removal env o tok Hp Hr).
  destruct (convert_num o); [reflexivity|].
  destruct (lemmatization o && negb (lemma_ tok =? "-PRON-")); simpl.
  - destruct (lemma_ tok =? ""); reflexivity.
  - destruct (text tok =? ""); reflexivity.
Qed.

Lemma numbers_escape_the_stop_rule_witness :
  token_step Sample.env Sample.surface_only_numbers [PyStr "item"]
             (mkToken "one" "NUM" "one")
  = Ok [PyStr "item"; PyStr "one"].
Proof.
  apply (numbers_escape_the_stop_rule Sample.env Sample.surface_only_numbers
           [PyStr "item"] (mkToken "one" "NUM" "one")); reflexivity.
Defined.

Lemma filter_map_text (doc : list Token) :
  map text (filter (fun tok => negb (text tok =? "")) doc)
  = filter (fun s => negb (s =? "")) (map text doc).
Proof.
  induction doc as [|tok doc IH]; simpl; [reflexivity|].
  destruct (text tok =? ""); simpl; rewrite IH; reflexivity.
Qed.

(** X7. With every rule of the loop disabled nothing is dropped or
    rewritten: the result is the surface texts of all the tokens, the empty
    ones apart, joined by single spaces. *)
Theorem filters_off_keeps_every_token (env : Env) (o : Options) (t : string) :
  filters_off o ->
  text_preprocessing env o t
  = Ok (PyStr.join " "
          (filter (fun s => negb (s =? ""))
                  (map text (nlp env (clean env o t))))).
Proof.
  intros (H1 & H2 & H3 & H4 & H5 & H6).
  assert (Hk : forall tok, rule_table env o tok = Keep).
  { intros tok. rewrite rule_table_drop_or_rewrite.
    rewrite H1, H2, H3, H4, H5, H6. reflexivity. }
  rewrite text_preprocessing_no_convert
    by (intros tok _; rewrite Hk; discriminate).
  rewrite <- filter_map_text. unfold survivors.
  rewrite (filter_ext (survives env o) (fun tok => negb (text tok =? "")))
    by (intros tok; unfold survives, rewritten; rewrite Hk; reflexivity).
  rewrite (map_ext (rewritten env o) text)
    by (intros tok; unfold rewritten; rewrite Hk; reflexivity).
  reflexivity.
Qed.

Lemma filters_off_keeps_every_token_witness :
  text_preprocessing Sample.env Sample.all_off "tin  ore"
  = Ok (PyStr.join " "
          (filter (fun s => negb (s =? ""))
                  (map text (nlp Sample.env
                                 (clean Sample.env Sample.all_off
                                        "tin  ore"))))).
Proof.
  apply (filters_off_keeps_every_token Sample.env Sample.all_off "tin  ore").
  repeat split.
Defined.

Lemma drop_test_monotone (env : Env) (o o' : Options) (tok : Token) :
  drops_more o o' ->
  rule_table env o tok = Drop -> rule_table env o' tok = Drop.
Proof.
  intros (H1 & H2 & H3 & H4 & _ & _).
  rewrite !rule_table_drop_or_rewrite.
  destruct (stop_words o);
    [rewrite (H1 eq_refl)|];
    (destruct (punctuations o); [rewrite (H2 eq_refl)|]);
    (destruct (special_chars o); [rewrite (H3 eq_refl)|]);
    (destruct (remove_num o); [rewrite (H4 eq_refl)|]);
    simpl;
    destruct (is_stop env tok), (pos_ tok =? "NUM"), (pos_ tok =? "PUNCT"),
      (pos_ tok =? "SYM"), (PyStr.isnumeric (text tok));
    simpl; rewrite ?andb_false_r, ?andb_true_r, ?orb_true_r; simpl;
    try reflexivity;
    repeat match goal with
           | |- context [if ?b then _ else _] =>
               destruct b; simpl; try reflexivity; try discriminate
           end.
Qed.

(** X8. Enabling more drop rules only removes tokens: when [o'] enables
    every drop rule that [o] enables and rewrites alike, the survivors under
    [o'] are survivors under [o], in the same order and written the same. *)
Theorem more_drop_rules_fewer_survivors (env : Env) (o o' : Options)
  (doc : list Token) :
  drops_more o o' ->
  survivors env o' doc = filter (survives env o') (survivors env o doc)
  /\ map (rewritten env o') (survivors env o' doc)
     = map (rewritten env o) (survivors env o' doc).
Proof.
  intros Hm.
  assert (Htok : forall tok, survives env o' tok = true ->
                             survives env o tok = true
                             /\ rewritten env o' tok = rewritten env o tok).
  { intros tok Hs. unfold survives in Hs. apply andb_prop in Hs.
    destruct Hs as [Hnd Hne].
    assert (Hd' : rule_table env o' tok <> Drop)
      by (intros E; rewrite E in Hnd; discriminate).
    assert (Hd : rule_table env o tok <> Drop)
      by (intros E; apply Hd', (drop_test_monotone env o o' tok Hm E)).
    destruct Hm as (_ & _ & _ & _ & Hc & Hl).
    assert (Hsame : rule_table env o' tok = rule_table env o tok).
    { rewrite (not_drop_chain env o' tok Hd'), (not_drop_chain env o tok Hd).
      rewrite Hc, Hl. reflexivity. }
    assert (Hrw : rewritten env o' tok = rewritten env o tok)
      by (unfold rewritten; rewrite Hsame; reflexivity).
    split; [|exact Hrw].
    unfold survives. rewrite <- Hsame, <- Hrw, Hnd, Hne. reflexivity. }
  split.
  - unfold survivors. induction doc as [|tok doc IH]; simpl; [reflexivity|].
    destruct (survives env o' tok) eqn:Hs'.
    + destruct (Htok tok Hs') as [Hs _]. rewrite Hs. simpl.
      rewrite Hs', IH. reflexivity.
    + destruct (survives env o tok); simpl; rewrite ?Hs'; exact IH.
  - apply map_ext_in. intros tok Hin. unfold survivors in Hin.
    apply filter_In in Hin. apply (Htok tok), Hin.
Qed.

Lemma more_drop_rules_fewer_survivors_witness :
  let doc := nlp Sample.env "do not use 5 computers!" in
  survivors Sample.env default_options doc
  = filter (survives Sample.env default_options)
           (survivors Sample.env Sample.keep_numbers doc)
  /\ map (rewritten Sample.env default_options)
         (survivors Sample.env default_options doc)
     = map (rewritten Sample.env Sample.keep_numbers)
           (survivors Sample.env default_options doc).
Proof.
  apply (more_drop_rules_fewer_survivors Sample.env Sample.keep_numbers
           default_options (nlp Sample.env "do not use 5 computers!")).
  repeat split; reflexivity.
Defined.

(** X17. With the four drop rules enabled, as they are by default, no
    surviving token is a stop word, a number, a punctuation mark or a
    symbol, and none has a numeric surface text. *)
Theorem survivors_pass_every_drop_rule (env : Env) (o : Options)
  (doc : list Token) (tok : Token) :
  stop_words o = true -> punctuations o = true ->
  special_chars o = true -> remove_num o = true ->
  In tok (survivors env o doc) ->
  In tok doc
  /\ is_stop env tok = false
  /\ pos_ tok <> "NUM" /\ pos_ tok <> "PUNCT" /\ pos_ tok <> "SYM"
  /\ PyStr.isnumeric (text tok) = false.
Proof.
  intros H1 H2 H3 H4 Hin. unfold survivors in Hin.
  apply filter_In in Hin. destruct Hin as [Hin Hs].
  split; [exact Hin|].
  unfold survives in Hs. apply andb_prop in Hs. destruct Hs as [Hnd _].
  rewrite rule_table_drop_or_rewrite, H1, H2, H3, H4 in Hnd. simpl in Hnd.
  destruct (pos_ tok =? "NUM") eqn:En;
    [rewrite !orb_true_r in Hnd; discriminate|].
  destruct (pos_ tok =? "PUNCT") eqn:Ep;
    [rewrite !orb_true_r in Hnd; discriminate|].
  destruct (pos_ tok =? "SYM") eqn:Es;
    [rewrite !orb_true_r in Hnd; discriminate|].
  destruct (PyStr.isnumeric (text tok));
    [rewrite !orb_true_r in Hnd; discriminate|].
  destruct (is_stop env tok); [discriminate|].
  apply String.eqb_neq in En, Ep, Es. repeat split; assumption.
Qed.

Lemma survivors_pass_every_drop_rule_witness :
  let tok := mkToken "use" "VERB" "use" in
  In tok (nlp Sample.env "do not use 5 computers!")
  /\ is_stop Sample.env tok = false
  /\ pos_ tok <> "NUM" /\ pos_ tok <> "PUNCT" /\ pos_ tok <> "SYM"
  /\ PyStr.isnumeric (text tok) = false.
Proof.
  apply (survivors_pass_every_drop_rule Sample.env default_options
           (nlp Sample.env "do not use 5 computers!")
           (mkToken "use" "VERB" "use")); try reflexivity.
  vm_compute. right. left. reflexivity.
Defined.

(** ** Further properties of the search (lines 672-676) *)

Lemma prefix_decompose (p s : string) :
  prefix p s = true -> exists b, s = p ++ b.
Proof.
  revert s. induction p as [|a p IH]; intros s H.
  - exists s. reflexivity.
  - destruct s as [|c s]; [discriminate|].
    rewrite prefix_cons in H.
    destruct (ascii_dec a c) as [<-|]; [|discriminate].
    destruct (IH s H) as [b ->]. exists b. reflexivity.
Qed.

Lemma prefix_append (p b : string) : prefix p (p ++ b) = true.
Proof.
  induction p as [|a p IH]; [destruct b; reflexivity|].
  change (String a p ++ b) with (String a (p ++ b)).
  rewrite prefix_cons. destruct (ascii_dec a a); [exact IH | congruence].
Qed.

Lemma contains_decompose (p s : string) :
  PyStr.contains p s = true -> exists a b, s = a ++ p ++ b.
Proof.
  induction s as [|c s IH]; intros H.
  - change (PyStr.contains p "") with (prefix p "" || false) in H.
    rewrite orb_false_r in H. destruct (prefix_decompose p "" H) as [b Hb].
    exists "", b. exact Hb.
  - rewrite contains_cons in H. apply orb_prop in H. destruct H as [H|H].
    + destruct (prefix_decompose _ _ H) as [b Hb]. exists "", b. exact Hb.
    + destruct (IH H) as (a & b & ->). exists (String c a), b. reflexivity.
Qed.

Lemma contains_append (a p b : string) :
  PyStr.contains p (a ++ p ++ b) = true.
Proof.
  induction a as [|c a IH].
  - simpl append. destruct (p ++ b) as [|d r] eqn:E.
    + change (PyStr.contains p "") with (prefix p "" || false).
      rewrite <- E, prefix_append. reflexivity.
    + rewrite contains_cons, <- E, prefix_append. reflexivity.
  - change (String c a ++ p ++ b) with (String c (a ++ p ++ b)).
    rewrite contains_cons, IH. apply orb_true_r.
Qed.

Lemma split_aux_cons (cur : list ascii) (c : ascii) (r : string) :
  PyStr.split_aux cur (String c r)
  = if PyStr.isspace c then (PyStr.flush cur ++ PyStr.split_aux [] r)%list
    else PyStr.split_aux (c :: cur) r.
Proof.
  reflexivity.
Qed.

(** A word between two spaces is one of the words of the text. *)
Lemma split_finds_padded_word (w a b : string) :
  word w = true ->
  forall cur,
    In w (PyStr.split_aux cur (a ++ String " " (w ++ String " " b))).
Proof.
  intros Hw. induction a as [|c a IH]; intros cur.
  - simpl append. rewrite split_aux_cons.
    change (PyStr.isspace " ") with true. cbv iota.
    apply in_or_app. right.
    rewrite (split_aux_spaceless w _ (word_spaceless w Hw)), app_nil_r.
    rewrite split_aux_cons. change (PyStr.isspace " ") with true. cbv iota.
    apply in_or_app. left. rewrite (flush_rev_word w Hw). left. reflexivity.
  - change (String c a ++ String " " (w ++ String " " b))
      with (String c (a ++ String " " (w ++ String " " b))).
    rewrite split_aux_cons. destruct (PyStr.isspace c).
    + apply in_or_app. right. apply IH.
    + apply IH.
Qed.

Lemma space_not_spaceless (r : string) : spaceless (String " " r) = false.
Proof.
  reflexivity.
Qed.

(** Where a word followed by a space starts a text made of a word and a
    tail, the two words are the same and the tail is not empty. *)
Lemma prefix_word_boundary (w : string) :
  forall w2 tail,
    spaceless w = true -> spaceless w2 = true ->
    tail = "" \/ (exists t, tail = String " " t) ->
    prefix (w ++ " ") (w2 ++ tail) = true ->
    w = w2 /\ tail <> "".
Proof.
  induction w as [|c w IH]; intros w2 tail Hw Hw2 Htail Hp.
  - destruct w2 as [|c2 w2].
    + destruct Htail as [->|[t ->]]; [discriminate|].
      split; [reflexivity | discriminate].
    + simpl append in Hp. rewrite prefix_cons in Hp.
      destruct (ascii_dec " " c2) as [<-|]; [|discriminate].
      rewrite space_not_spaceless in Hw2. discriminate.
  - change (String c w ++ " ") with (String c (w ++ " ")) in Hp.
    unfold spaceless in Hw. simpl in Hw. apply andb_prop in Hw.
    destruct Hw as [Hc Hw].
    destruct w2 as [|c2 w2].
    + simpl append in Hp. destruct Htail as [->|[t ->]]; [discriminate|].
      rewrite prefix_cons in Hp.
      destruct (ascii_dec c " ") as [->|]; discriminate.
    + change (String c2 w2 ++ tail) with (String c2 (w2 ++ tail)) in Hp.
      rewrite prefix_cons in Hp.
      destruct (ascii_dec c c2) as [<-|]; [|discriminate].
      unfold spaceless in Hw2. simpl in Hw2. apply andb_prop in Hw2.
      destruct Hw2 as [_ Hw2].
      destruct (IH w2 tail Hw Hw2 Htail Hp) as [-> Ht].
      split; [reflexivity | exact Ht].
Qed.

Lemma join_cons_tail (w : string) (rest : list string) :
  exists tail,
    PyStr.join " " (w :: rest) = w ++ tail
    /\ ((rest = [] /\ tail = "")
        \/ (rest <> [] /\ tail = String " " (PyStr.join " " rest))).
Proof.
  destruct rest as [|w2 rest].
  - exists "". split; [simpl; symmetry; apply append_empty_r|].
    left. split; reflexivity.
  - exists (String " " (PyStr.join " " (w2 :: rest))).
    split; [reflexivity|]. right. split; [discriminate | reflexivity].
Qed.

Lemma join_app (l1 l2 : list string) :
  l1 <> [] -> l2 <> [] ->
  PyStr.join " " (l1 ++ l2)
  = PyStr.join " " l1 ++ " " ++ PyStr.join " " l2.
Proof.
  intros H1 H2. induction l1 as [|x l1 IH]; [contradiction|].
  destruct l1 as [|y l1].
  - destruct l2 as [|z l2]; [contradiction | reflexivity].
  - change (PyStr.join " " ((x :: y :: l1) ++ l2))
      with (x ++ " " ++ PyStr.join " " ((y :: l1) ++ l2)).
    rewrite IH by discriminate.
    change (PyStr.join " " (x :: y :: l1))
      with (x ++ " " ++ PyStr.join " " (y :: l1)).
    rewrite !append_assoc. reflexivity.
Qed.

(** In a text of words joined by single spaces, a word between two spaces is
    found exactly when it is one of the words, the first and the last
    apart. *)
Lemma join_contains_interior (w : string) (ws : list string) :
  word w = true ->
  Forall (fun x => word x = true) ws ->
  PyStr.contains (" " ++ w ++ " ") (PyStr.join " " ws) = true
  <-> exists pre post, pre <> [] /\ post <> [] /\ ws = (pre ++ w :: post)%list.
Proof.
  intros Hw Hws. split.
  - induction Hws as [|w1 ws Hw1 Hws IH]; intros H; [discriminate|].
    destruct (join_cons_tail w1 ws) as (tail & Hj & Htail).
    rewrite Hj in H.
    change (" " ++ w ++ " ") with (String " " (w ++ " ")) in H.
    rewrite (contains_skip_spaceless _ w1 tail (word_spaceless w1 Hw1)) in H.
    destruct Htail as [[-> ->]|[Hne ->]]; [discriminate|].
    rewrite contains_cons, prefix_cons in H.
    destruct (ascii_dec " " " ") as [_|]; [|congruence].
    apply orb_prop in H. destruct H as [H|H].
    + destruct ws as [|w2 rest]; [contradiction|].
      inversion Hws as [|? ? Hw2 _]; subst.
      destruct (join_cons_tail w2 rest) as (tail2 & Hj2 & Htail2).
      rewrite Hj2 in H.
      destruct (prefix_word_boundary w w2 tail2 (word_spaceless w Hw)
                  (word_spaceless w2 Hw2)) as [<- Hne2].
      { destruct Htail2 as [[_ ->]|[_ ->]]; [left; reflexivity|].
        right. eexists. reflexivity. }
      { exact H. }
      exists [w1], rest. repeat split; try discriminate.
      destruct Htail2 as [[_ ->]|[Hr _]]; [contradiction | exact Hr].
    + destruct (IH H) as (pre & post & Hpre & Hpost & ->).
      exists (w1 :: pre), post. repeat split; [discriminate | exact Hpost].
  - intros (pre & post & Hpre & Hpost & ->).
    rewrite join_app by (assumption || discriminate).
    destruct post as [|p post]; [contradiction|].
    change (PyStr.join " " (w :: p :: post))
      with (w ++ " " ++ PyStr.join " " (p :: post)).
    replace (PyStr.join " " pre ++ " " ++ w ++ " " ++ PyStr.join " " (p :: post))
      with (PyStr.join " " pre ++ (" " ++ w ++ " ")
            ++ PyStr.join " " (p :: post)).
    + apply contains_append.
    + simpl. rewrite !append_assoc. reflexivity.
Qed.

(** What a search returns, whatever the regular-expression engine. *)
Lemma display_table_outcome (env : Env) (data : list Row) (q : string) :
  exists nq,
    text_preprocessing env default_options q = Ok nq
    /\ display_table env data q
       = match re_compile env (" " ++ nq ++ " ") with
         | Ok m => Ok (filter (fun r => m (Text_Proc1 r)) data)
         | Raise e => Raise e
         end.
Proof.
  assert (Hnq := text_preprocessing_no_convert env default_options q
                   (fun tok _ =>
                      remove_num_blocks_convert env default_options tok
                        eq_refl)).
  match type of Hnq with _ = Ok ?x => remember x as nq end.
  exists nq. split; [exact Hnq|].
  unfold display_table, str_contains. rewrite Hnq.
  cbv beta iota delta [bind].
  destruct (re_compile env (" " ++ nq ++ " "));
    [rewrite select_rows_filter|]; reflexivity.
Qed.

Lemma display_table_literal (env : Env) (data : list Row) (q nq : string) :
  literal_search env ->
  text_preprocessing env default_options q = Ok nq ->
  regex_free nq = true ->
  display_table env data q
  = Ok (filter (fun r => PyStr.contains (" " ++ nq ++ " ") (Text_Proc1 r))
               data).
Proof.
  intros Hre Hnq Hfree.
  destruct (display_table_outcome env data q) as (nq' & Hnq' & ->).
  rewrite Hnq in Hnq'. injection Hnq' as <-.
  destruct (Hre _ (regex_free_padded nq Hfree)) as (m & -> & Hm).
  f_equal. apply filter_ext. intros r. apply Hm.
Qed.

(** X9. A search fails only when its pattern does not compile: normalising
    the query with the default options always returns a string [nq], and
    the search returns the rows, in table order, whose stored text the
    compiled pattern " nq " matches, or raises what compiling raised. *)
Theorem search_fails_only_on_pattern (env : Env) (data : list Row)
  (q : string) :
  exists nq,
    text_preprocessing env default_options q = Ok nq
    /\ (forall rows,
          display_table env data q = Ok rows
          <-> exists m, re_compile env (" " ++ nq ++ " ") = Ok m
                        /\ rows = filter (fun r => m (Text_Proc1 r)) data)
    /\ (forall e,
          display_table env data q = Raise e
          <-> re_compile env (" " ++ nq ++ " ") = Raise e).
Proof.
  destruct (display_table_outcome env data q) as (nq & Hnq & Hd).
  exists nq. split; [exact Hnq|]. rewrite Hd.
  destruct (re_compile env (" " ++ nq ++ " ")) as [m|e0]; split.
  - intros rows. split.
    + intros H. injection H as <-. exists m. split; reflexivity.
    + intros (m' & Hm & ->). injection Hm as <-. reflexivity.
  - intros e. split; discriminate.
  - intros rows. split; [discriminate|]. intros (m & Hm & _). discriminate.
  - intros e. split; intros H; injection H as <-; reflexivity.
Qed.

Lemma normalised_no_double_space (s : string) :
  remove_whitespace s = s -> PyStr.contains "  " s = false.
Proof.
  intros <-. rewrite remove_whitespace_split.
  apply join_no_double_space, split_words.
Qed.

(** X10. A query of which nothing survives (a blank query, or stop words
    only) finds nothing in a table whose stored texts are white-space
    normalised: the pattern is two spaces, and no such text has two spaces
    in a row. *)
Theorem empty_query_finds_nothing (env : Env) (data : list Row) (q : string) :
  literal_search env ->
  text_preprocessing env default_options q = Ok "" ->
  (forall r, In r data -> remove_whitespace (Text_Proc1 r) = Text_Proc1 r) ->
  display_table env data q = Ok [].
Proof.
  intros Hre Hq Hdata.
  rewrite (display_table_literal env data q "" Hre Hq eq_refl). f_equal.
  induction data as [|r data IH]; [reflexivity|].
  simpl filter.
  change (String " " " ") with "  ".
  rewrite (normalised_no_double_space _ (Hdata r (or_introl eq_refl))).
  apply IH. intros r' Hr'. apply Hdata. right. exact Hr'.
Qed.

Lemma empty_query_finds_nothing_witness :
  display_table Sample.env
    [ Sample.row "personal computer parts"; Sample.row "tin ore" ] "   "
  = Ok [].
Proof.
  apply (empty_query_finds_nothing Sample.env).
  - exact sample_literal_search.
  - reflexivity.
  - intros r [<-|[<-|[]]]; reflexivity.
Defined.

(** X11. On a table whose stored texts are white-space normalised, a query
    that normalises to one word [w] without special characters returns
    exactly the rows that have [w] as a whole word which is neither the
    first nor the last word of the stored text. *)
Theorem search_hits_interior_words (env : Env) (data : list Row)
  (q w : string) (r : Row) :
  literal_search env ->
  text_preprocessing env default_options q = Ok w ->
  word w = true ->
  regex_free w = true ->
  remove_whitespace (Text_Proc1 r) = Text_Proc1 r ->
  exists rows,
    display_table env data q = Ok rows
    /\ (In r rows
        <-> In r data
            /\ exists pre post,
                 pre <> [] /\ post <> []
                 /\ PyStr.split (Text_Proc1 r) = (pre ++ w :: post)%list).
Proof.
  intros Hre Hq Hw Hfree Hr.
  eexists. split; [apply (display_table_literal env data q w Hre Hq Hfree)|].
  rewrite filter_In.
  rewrite <- (join_contains_interior w (PyStr.split (Text_Proc1 r)) Hw
                (split_words _)).
  rewrite <- remove_whitespace_split, Hr. reflexivity.
Qed.

Lemma search_hits_interior_words_witness :
  exists rows,
    display_table Sample.env
      [ Sample.row "computer"; Sample.row "personal computer parts" ]
      "computer" = Ok rows
    /\ (In (Sample.row "personal computer parts") rows
        <-> In (Sample.row "personal computer parts")
               [ Sample.row "computer"; Sample.row "personal computer parts" ]
            /\ exists pre post,
                 pre <> [] /\ post <> []
                 /\ PyStr.split
                      (Text_Proc1 (Sample.row "personal computer parts"))
                    = (pre ++ "computer" :: post)%list).
Proof.
  apply (search_hits_interior_words Sample.env _ "computer" "computer"
           (Sample.row "personal computer parts")).
  - exact sample_literal_search.
  - reflexivity.
  - reflexivity.
  - reflexivity.
  - reflexivity.
Defined.

(** X12. Whatever the stored texts are, a query that normalises to one word
    [w] without special characters only returns rows that have [w] among
    the words of their stored text: the search never matches a part of a
    longer word. *)
Theorem search_hits_whole_words_only (env : Env) (data : list Row)
  (q w : string) (rows : list Row) (r : Row) :
  literal_search env ->
  text_preprocessing env default_options q = Ok w ->
  word w = true ->
  regex_free w = true ->
  display_table env data q = Ok rows ->
  In r rows ->
  In r data /\ In w (PyStr.split (Text_Proc1 r)).
Proof.
  intros Hre Hq Hw Hfree Hd Hin.
  rewrite (display_table_literal env data q w Hre Hq Hfree) in Hd.
  injection Hd as <-. apply filter_In in Hin. destruct Hin as [Hin Hc].
  split; [exact Hin|].
  destruct (contains_decompose _ _ Hc) as (a & b & Hs).
  rewrite Hs.
  change (String " " (w ++ " ") ++ b) with (String " " ((w ++ " ") ++ b)).
  rewrite append_assoc.
  apply (split_finds_padded_word w a b Hw []).
Qed.

Lemma search_hits_whole_words_only_witness :
  In (Sample.row "personal computer parts")
     [ Sample.row "computers"; Sample.row "personal computer parts" ]
  /\ In "computer"
        (PyStr.split (Text_Proc1 (Sample.row "personal computer parts"))).
Proof.
  apply (search_hits_whole_words_only Sample.env
           [ Sample.row "computers"; Sample.row "personal computer parts" ]
           "computer" "computer"
           [ Sample.row "personal computer parts" ]).
  - exact sample_literal_search.
  - reflexivity.
  - reflexivity.
  - reflexivity.
  - reflexivity.
  - left. reflexivity.
Defined.

(** ** The navigation callbacks (lines 249-257, 264-662, 739-747) *)

Lemma toggle_active_links_flags (p : string) :
  toggle_active_links p
  = if p =? "/" then [true; false; false]
    else [p =? "/page-1"; p =? "/page-2"; p =? "/page-3"].
Proof.
  reflexivity.
Qed.

(** X13. [toggle_active_links] always returns three flags, and at most one
    of them is set. *)
Theorem at_most_one_active_link (pathname : string) :
  List.length (toggle_active_links pathname) = 3%nat
  /\ (count_occ bool_dec (toggle_active_links pathname) true <= 1)%nat.
Proof.
  rewrite toggle_active_links_flags.
  destruct (String.eqb_spec pathname "/") as [->|_]; [split; auto|].
  destruct (String.eqb_spec pathname "/page-1") as [->|_];
    [split; [reflexivity | simpl; auto]|].
  destruct (String.eqb_spec pathname "/page-2") as [->|_];
    [split; [reflexivity | simpl; auto]|].
  destruct (String.eqb_spec pathname "/page-3") as [->|_];
    split; simpl; auto.
Qed.

(** X14. The link that is shown active is the link of the page that is
    rendered: flag number [i] is set exactly when [render_page_content]
    builds page [i + 1], and no flag is set exactly when it builds the 404
    page. *)
Theorem active_link_is_rendered_page (data : list Row) (pathname : string)
  (i : nat) :
  nth_error (toggle_active_links pathname) i = Some true
  <-> page_link (render_page_content data pathname) = Some (S i).
Proof.
  rewrite toggle_active_links_flags. unfold render_page_content, PyStr.mem.
  simpl existsb.
  destruct (String.eqb_spec pathname "/") as [->|_].
  - destruct i as [|[|[|i]]]; simpl; split; intros H;
      try discriminate; try reflexivity; destruct i; discriminate.
  - destruct (String.eqb_spec pathname "/page-1") as [->|_].
    + destruct i as [|[|[|i]]]; simpl; split; intros H;
        try discriminate; try reflexivity; destruct i; discriminate.
    + destruct (String.eqb_spec pathname "/page-2") as [->|_].
      * destruct i as [|[|[|i]]]; simpl; split; intros H;
          try discriminate; try reflexivity; destruct i; discriminate.
      * destruct (String.eqb_spec pathname "/page-3") as [->|_];
          destruct i as [|[|[|i]]]; simpl; split; intros H;
          try discriminate; try reflexivity; destruct i; discriminate.
Qed.

(** X15. A path that belongs to no link gets the 404 page, and its message
    quotes the path as it was given. *)
Theorem not_found_quotes_the_path (data : list Row) (pathname : string) :
  ~ In pathname ["/"; "/page-1"; "/page-2"; "/page-3"] ->
  exists message,
    render_page_content data pathname = NotFound "404: Not found" message
    /\ PyStr.contains pathname message = true.
Proof.
  intros Hno. unfold render_page_content, PyStr.mem. simpl existsb.
  destruct (String.eqb_spec pathname "/") as [E|_];
    [exfalso; apply Hno; rewrite E; simpl; auto|].
  destruct (String.eqb_spec pathname "/page-1") as [E|_];
    [exfalso; apply Hno; rewrite E; simpl; auto|].
  destruct (String.eqb_spec pathname "/page-2") as [E|_];
    [exfalso; apply Hno; rewrite E; simpl; auto|].
  destruct (String.eqb_spec pathname "/page-3") as [E|_];
    [exfalso; apply Hno; rewrite E; simpl; auto 6|].
  simpl. eexists. split; [reflexivity|].
  apply (contains_append "The pathname " pathname " was not recognised...").
Qed.

Lemma not_found_quotes_the_path_witness :
  exists message,
    render_page_content [] "/page-4" = NotFound "404: Not found" message
    /\ PyStr.contains "/page-4" message = true.
Proof.
  apply (not_found_quotes_the_path [] "/page-4").
  intros [H|[H|[H|[H|[]]]]]; discriminate H.
Defined.

Lemma after_clicks_from (k : nat) :
  forall start is_open,
    (1 <= start)%nat ->
    fold_left (fun st i => toggle_collapse (Some (Z.of_nat i)) st)
              (seq start k) is_open
    = if Nat.even k then is_open else negb is_open.
Proof.
  induction k as [|k IH]; intros start b Hs; [reflexivity|].
  simpl seq. simpl fold_left. rewrite IH by auto.
  unfold toggle_collapse.
  destruct (Z.eqb_spec (Z.of_nat start) 0) as [E|_].
  - destruct start; [inversion Hs | discriminate E].
  - simpl negb. cbv iota. rewrite Nat.even_succ, <- Nat.negb_even.
    destruct (Nat.even k), b; reflexivity.
Qed.

(** X16. Before the first click [toggle_collapse] leaves the state as it is,
    and after [k] clicks the collapse is back in its first state when [k] is
    even and in the other state when [k] is odd. *)
Theorem collapse_follows_click_parity (k : nat) (is_open : bool) :
  toggle_collapse None is_open = is_open
  /\ after_clicks k is_open = if Nat.even k then is_open else negb is_open.
Proof.
  split; [reflexivity|]. apply after_clicks_from. auto.
Qed.

(** ** Running the pipeline on its own output, with a lexical annotator *)



Section SurfaceOnly.

Variable env : Env.
Variable o : Options.
Hypothesis no_lemma : lemmatization o = false.
Hypothesis no_convert : convert_num o = false.




End SurfaceOnly.



